(** * advanced_stock_analyzer: position accounting and advisory engine

    A shallow embedding of [stock_calculator.py], [advanced_stock_analyzer.py]
    and the trade entry of [app.py].

    Numeric model.  Python [int] is [Z].  Python [float] is modelled by the
    exact rationals [Q] (the "real" of the data model); equality of prices
    and amounts is then [Qeq] ([==]), and the rounding of binary floating
    point is outside that model.  Where the order of the additions decides
    the result (buys of the same day), the ledger is replayed on binary64
    numbers, in module [F64].
    Exceptions are modelled by the [result] type: a division whose divisor
    is not protected by a guard in the source raises [ZeroDivisionError],
    [statistics.stdev] raises [StatisticsError] below two data points. *)

From Stdlib Require Import ZArith QArith Lia Lqa Bool.
From Stdlib Require Import List Permutation Sorted String.
From Stdlib Require PrimFloat SpecFloat FloatOps.
From stdpp Require Import base option list gmap strings.

Local Open Scope Z_scope.
Local Open Scope Q_scope.

(** ** Numbers *)

Module Num.

Definition Qltb (x y : Q) : bool := negb (Qle_bool y x).
Definition Qgtb (x y : Q) : bool := Qltb y x.
Definition Qgeb (x y : Q) : bool := Qle_bool y x.

(** [float(n)] for an [int] [n]. *)
Definition of_int (n : Z) : Q := inject_Z n.

(** Python's [sum] over a list of floats (left to right, from [0]). *)
Definition sum (l : list Q) : Q := fold_left Qplus l 0.

End Num.
Import Num.

(** ** stock_calculator.py *)

(** [datetime] values are only compared; they are modelled by an integer
    time stamp. *)
Definition datetime := Z.
Bind Scope Z_scope with datetime.

Record Trade := mkTrade {
  date : datetime;
  action : string;
  price : Q;
  shares : Z;
  commission : Q;
  description : string
}.

Record StockCalculator := mkCalc {
  stock_code : string;
  trades : list Trade;
  current_shares : Z;
  total_cost : Q;
  total_commission : Q
}.

(** [StockCalculator.__init__] *)
Definition new_calculator (code : string) : StockCalculator :=
  mkCalc code [] 0%Z 0 0.

(** [list.sort(key=...)] on a key that is a date: Python's sort is stable,
    so the result is the one of a stable insertion sort. *)
Fixpoint insert_by {A : Type} (key : A -> datetime) (x : A) (l : list A)
    : list A :=
  match l with
  | [] => [x]
  | y :: l' =>
      if (key x <=? key y)%Z then x :: y :: l'
      else y :: insert_by key x l'
  end.

Fixpoint sort_by {A : Type} (key : A -> datetime) (l : list A) : list A :=
  match l with
  | [] => []
  | x :: l' => insert_by key x (sort_by key l')
  end.

(** The position, as the three fields [_recalculate_position] rewrites. *)
Record Position := mkPos {
  pos_shares : Z;
  pos_cost : Q;
  pos_commission : Q
}.

Definition sell_ratio (t : Trade) (held : Z) : Q :=
  of_int (shares t) / of_int held.

(** One iteration of the loop of [_recalculate_position]. *)
Definition apply_trade (p : Position) (t : Trade) : Position :=
  if String.eqb (action t) "buy" then
    mkPos (pos_shares p + shares t)%Z
          (pos_cost p + price t * of_int (shares t))
          (pos_commission p + commission t)
  else if String.eqb (action t) "sell" then
    if (0 <? pos_shares p)%Z then
      mkPos (pos_shares p - shares t)%Z
            (pos_cost p * (1 - sell_ratio t (pos_shares p)))
            (pos_commission p + commission t)
    else p
  else p.

Definition replay (ts : list Trade) : Position :=
  fold_left apply_trade ts (mkPos 0%Z 0 0).

Definition _recalculate_position (c : StockCalculator) : StockCalculator :=
  let p := replay (trades c) in
  mkCalc (stock_code c) (trades c) (pos_shares p) (pos_cost p) (pos_commission p).

Definition add_trade (c : StockCalculator) (t : Trade) : StockCalculator :=
  _recalculate_position
    (mkCalc (stock_code c) (sort_by date (trades c ++ [t]))
            (current_shares c) (total_cost c) (total_commission c)).

Definition buy (c : StockCalculator) (d : datetime) (p : Q) (n : Z)
    (com : Q) (descr : string) : StockCalculator :=
  add_trade c (mkTrade d "buy" p n com descr).

Definition sell (c : StockCalculator) (d : datetime) (p : Q) (n : Z)
    (com : Q) (descr : string) : StockCalculator :=
  add_trade c (mkTrade d "sell" p n com descr).

Definition get_average_cost (c : StockCalculator) : Q :=
  if (current_shares c <=? 0)%Z then 0
  else total_cost c / of_int (current_shares c).

Definition get_total_investment (c : StockCalculator) : Q :=
  total_cost c + total_commission c.

Record ProfitLoss := mkPL {
  profit_loss : Q;
  profit_loss_rate : Q;
  market_value : Q;
  total_investment : Q
}.

Definition calculate_profit_loss (c : StockCalculator) (current_price : Q)
    : ProfitLoss :=
  if (current_shares c <=? 0)%Z then mkPL 0 0 0 0
  else
    let market_value := current_price * of_int (current_shares c) in
    let total_investment := get_total_investment c in
    let profit_loss := market_value - total_investment in
    let profit_loss_rate :=
      if Qgtb total_investment 0 then (profit_loss / total_investment) * 100
      else 0 in
    mkPL profit_loss profit_loss_rate market_value total_investment.

Record PositionSummary := mkSummary {
  ps_stock_code : string;
  ps_current_shares : Z;
  ps_average_cost : Q;
  ps_total_cost : Q;
  ps_total_commission : Q;
  ps_total_investment : Q
}.

Definition get_position_summary (c : StockCalculator) : PositionSummary :=
  mkSummary (stock_code c) (current_shares c) (get_average_cost c)
            (total_cost c) (total_commission c) (get_total_investment c).

(** *** StockPortfolio

    A Python [dict] iterates in insertion order; [stocks] and the
    [stocks] entry of the summary are kept as association lists in that
    order.  [current_prices] is only looked up. *)

Module Dict.

Definition t (V : Type) := list (string * V).

Fixpoint get {V} (d : t V) (k : string) : option V :=
  match d with
  | [] => None
  | (k', v) :: d' => if String.eqb k k' then Some v else get d' k
  end.

(** [d[k] = v] *)
Fixpoint set {V} (d : t V) (k : string) (v : V) : t V :=
  match d with
  | [] => [(k, v)]
  | (k', v') :: d' =>
      if String.eqb k k' then (k, v) :: d' else (k', v') :: set d' k v
  end.

Definition keys {V} (d : t V) : list string := map fst d.

End Dict.

Record StockPortfolio := mkPortfolio {
  stocks : Dict.t StockCalculator
}.

Definition add_stock (p : StockPortfolio) (code : string)
    : StockPortfolio * StockCalculator :=
  match Dict.get (stocks p) code with
  | Some c => (p, c)
  | None =>
      let c := new_calculator code in
      (mkPortfolio (Dict.set (stocks p) code c), c)
  end.

Definition get_stock (p : StockPortfolio) (code : string)
    : option StockCalculator :=
  Dict.get (stocks p) code.

Record StockSummary := mkStockSummary {
  ss_position : PositionSummary;
  ss_profit_loss : ProfitLoss
}.

Record PortfolioSummary := mkPortfolioSummary {
  sum_total_investment : Q;
  sum_total_market_value : Q;
  sum_total_profit_loss : Q;
  sum_total_profit_loss_rate : Q;
  sum_stocks : Dict.t StockSummary
}.

(** [current_prices.get(stock_code, 0.0)] *)
Definition price_of (current_prices : gmap string Q) (code : string) : Q :=
  default 0 (current_prices !! code).

(** The loop state of [get_portfolio_summary]. *)
Record Totals := mkTotals {
  acc_investment : Q;
  acc_market_value : Q;
  acc_profit_loss : Q;
  acc_summaries : Dict.t StockSummary
}.

Definition summary_step (current_prices : gmap string Q) (acc : Totals)
    (item : string * StockCalculator) : Totals :=
  let '(code, calculator) := item in
  let current_price := price_of current_prices code in
  let profit_loss_info := calculate_profit_loss calculator current_price in
  mkTotals
    (acc_investment acc + total_investment profit_loss_info)
    (acc_market_value acc + market_value profit_loss_info)
    (acc_profit_loss acc + profit_loss profit_loss_info)
    (Dict.set (acc_summaries acc) code
       (mkStockSummary (get_position_summary calculator) profit_loss_info)).

Definition get_portfolio_summary (p : StockPortfolio)
    (current_prices : gmap string Q) : PortfolioSummary :=
  let acc := fold_left (summary_step current_prices) (stocks p)
                       (mkTotals 0 0 0 []) in
  let total_profit_loss_rate :=
    if Qgtb (acc_investment acc) 0
    then (acc_profit_loss acc / acc_investment acc) * 100
    else 0 in
  mkPortfolioSummary (acc_investment acc) (acc_market_value acc)
                     (acc_profit_loss acc) total_profit_loss_rate
                     (acc_summaries acc).

(** ** Python runtime: exceptions, ranges, slices, indexing *)

Inductive exn := ZeroDivisionError | IndexError | StatisticsError.

Inductive result (A : Type) : Type :=
  | Ok (a : A)
  | Raise (e : exn).
Arguments Ok {A} a.
Arguments Raise {A} e.

#[global] Instance result_ret : MRet result := fun A a => Ok a.
#[global] Instance result_bind : MBind result := fun A B f m =>
  match m with
  | Ok a => f a
  | Raise e => Raise e
  end.

Module Py.

Definition len {A} (l : list A) : Z := Z.of_nat (length l).

(** [range(a, b)] *)
Definition range (a b : Z) : list Z :=
  map (fun k => a + Z.of_nat k)%Z (seq 0 (Z.to_nat (b - a))).

(** Normalisation of one bound of a slice: a negative bound counts from the
    end, and every bound is clipped to [0, len]. *)
Definition clip (n i : Z) : Z :=
  if (i <? 0)%Z then Z.max 0 (i + n) else Z.min i n.

(** [l[a:b]] *)
Definition slice {A} (l : list A) (a b : Z) : list A :=
  let n := len l in
  take (Z.to_nat (clip n b - clip n a)) (drop (Z.to_nat (clip n a)) l).

(** [l[i]]: a negative index counts from the end; out of range raises. *)
Definition index {A} (l : list A) (i : Z) : result A :=
  let j := if (i <? 0)%Z then (i + len l)%Z else i in
  if (j <? 0)%Z then Raise IndexError
  else match l !! Z.to_nat j with
       | Some x => Ok x
       | None => Raise IndexError
       end.

(** [x / y] on floats. *)
Definition div (x y : Q) : result Q :=
  if Qeq_bool y 0 then Raise ZeroDivisionError else Ok (x / y).

(** [max(a, b)]: the first argument unless the second is greater. *)
Definition max (a b : Q) : Q := if Qgtb b a then b else a.

(** [sub in s] on strings. *)
Definition contains (sub s : string) : bool :=
  match String.index 0 sub s with
  | Some _ => true
  | None => false
  end.

End Py.

(** A [for] loop that threads a state and may raise. *)
Fixpoint for_each {S A : Type} (body : S -> A -> result S) (st : S)
    (l : list A) : result S :=
  match l with
  | [] => Ok st
  | x :: l' => st' ← body st x; for_each body st' l'
  end.

(** ** advanced_stock_analyzer.py *)

Record PricePoint := mkPoint {
  pp_date : datetime;
  pp_price : Q;
  pp_volume : Z
}.

(** *** TechnicalIndicators *)

Definition calculate_sma (prices : list Q) (period : Z) : result (list Q) :=
  if (Py.len prices <? period)%Z then Ok []
  else
    mapM (fun i =>
            Py.div (sum (Py.slice prices (i - period + 1) (i + 1)))
                   (of_int period))
         (Py.range (period - 1) (Py.len prices)).

(** The first loop of [calculate_rsi]: the gain and the loss of step [i]. *)
Definition gain_loss (prices : list Q) (i : Z) : result (Q * Q) :=
  a ← Py.index prices i;
  b ← Py.index prices (i - 1);
  let change := a - b in
  Ok (Py.max change 0, Py.max (- change) 0).

(** The oscillator value of one window, from its mean gain and mean loss. *)
Definition rsi_value (avg_gain avg_loss : Q) : result Q :=
  if Qeq_bool avg_loss 0 then Ok 100
  else
    rs ← Py.div avg_gain avg_loss;
    d ← Py.div 100 (1 + rs);
    Ok (100 - d).

Definition calculate_rsi (prices : list Q) (period : Z) : result (list Q) :=
  if (Py.len prices <? period + 1)%Z then Ok []
  else
    gl ← mapM (gain_loss prices) (Py.range 1 (Py.len prices));
    let gains := map fst gl in
    let losses := map snd gl in
    mapM (fun i =>
            avg_gain ← Py.div (sum (Py.slice gains (i - period) i)) (of_int period);
            avg_loss ← Py.div (sum (Py.slice losses (i - period) i)) (of_int period);
            rsi_value avg_gain avg_loss)
         (Py.range period (Py.len prices)).

(** *** The [statistics] and [math] modules

    [math.sqrt] has no counterpart on the rationals; the development is
    parametric in it.  [statistics.stdev] is the square root of the sample
    variance and raises [StatisticsError] on fewer than two data points. *)

Module statistics.

Definition mean (data : list Q) : Q := sum data / of_int (Py.len data).

Definition variance (data : list Q) : result Q :=
  if (Py.len data <? 2)%Z then Raise StatisticsError
  else
    let xbar := mean data in
    Ok (sum (map (fun x => (x - xbar) * (x - xbar)) data)
        / of_int (Py.len data - 1)).

Definition stdev (sqrt : Q -> Q) (data : list Q) : result Q :=
  v ← variance data; Ok (sqrt v).

End statistics.

Section Analyzer.

Variable sqrt : Q -> Q.

(** *** RiskAnalyzer *)

Definition period_return (prices : list Q) (i : Z) : result Q :=
  a ← Py.index prices i;
  b ← Py.index prices (i - 1);
  Py.div (a - b) b.

Definition calculate_volatility (prices : list Q) : result Q :=
  if (Py.len prices <? 2)%Z then Ok 0
  else
    returns ← mapM (period_return prices) (Py.range 1 (Py.len prices));
    sd ← statistics.stdev sqrt returns;
    Ok (sd * sqrt 252).

(** One iteration of the loop of [calculate_max_drawdown], on the pair
    [(peak, max_dd)]. *)
Definition drawdown_step (st : Q * Q) (price : Q) : result (Q * Q) :=
  let '(peak, max_dd) := st in
  if Qgtb price peak then Ok (price, max_dd)
  else
    dd ← Py.div (peak - price) peak;
    if Qgtb dd max_dd then Ok (peak, dd) else Ok (peak, max_dd).

Definition calculate_max_drawdown (prices : list Q) : result Q :=
  if (Py.len prices <? 2)%Z then Ok 0
  else
    peak ← Py.index prices 0;
    st ← for_each drawdown_step (peak, 0) prices;
    Ok (snd st).

(** *** InvestmentAdvisor *)

Definition insufficient_data : string := "数据不足".
Definition golden_cross : string := "强烈买入信号（金叉）".
Definition death_cross : string := "强烈卖出信号（死叉）".
Definition bullish : string := "多头趋势".
Definition bearish : string := "空头趋势".

(** The final [if]/[elif] chain of [analyze_trend]. *)
Definition trend_signal (current_short current_long prev_short prev_long : Q)
    : string :=
  if Qgtb current_short current_long && Qle_bool prev_short prev_long
  then golden_cross
  else if Qltb current_short current_long && Qgeb prev_short prev_long
  then death_cross
  else if Qgtb current_short current_long then bullish
  else bearish.

(** [sma[-2] if len(sma) > 1 else current] *)
Definition previous (sma : list Q) (current : Q) : result Q :=
  if (1 <? Py.len sma)%Z then Py.index sma (-2) else Ok current.

Definition analyze_trend (prices : list Q) (short_period long_period : Z)
    : result string :=
  if (Py.len prices <? long_period)%Z then Ok insufficient_data
  else
    short_sma ← calculate_sma prices short_period;
    long_sma ← calculate_sma prices long_period;
    match short_sma, long_sma with
    | [], _ | _, [] => Ok insufficient_data
    | _, _ =>
        current_short ← Py.index short_sma (-1);
        current_long ← Py.index long_sma (-1);
        prev_short ← previous short_sma current_short;
        prev_long ← previous long_sma current_long;
        Ok (trend_signal current_short current_long prev_short prev_long)
    end.

Definition analyze_rsi_signal (prices : list Q) : result string :=
  rsi ← calculate_rsi prices 14;
  match rsi with
  | [] => Ok insufficient_data
  | _ =>
      current_rsi ← Py.index rsi (-1);
      if Qgtb current_rsi 70 then Ok "超买信号，考虑卖出"%string
      else if Qltb current_rsi 30 then Ok "超卖信号，考虑买入"%string
      else if Qgtb current_rsi 50 then Ok "强势区间"%string
      else Ok "弱势区间"%string
  end.

Record TechnicalAnalysis := mkTech {
  trend : string;
  rsi_signal : string
}.

Record RiskAnalysis := mkRisk {
  volatility : Q;
  max_drawdown : Q;
  risk_level : string
}.

Record Advice := mkAdvice {
  position_summary : PositionSummary;
  adv_profit_loss : ProfitLoss;
  technical_analysis : TechnicalAnalysis;
  risk_analysis : RiskAnalysis;
  advice : list string
}.

(** The two shapes of the dictionary [get_comprehensive_advice] returns. *)
Inductive Bundle :=
  | ErrorBundle (error : string)
  | AdviceBundle (a : Advice).

Definition risk_low : string := "低".
Definition risk_medium : string := "中".
Definition risk_high : string := "高".

Definition advice_take_profit : string := "当前盈利较高，可考虑部分止盈".
Definition advice_hold : string := "当前盈利，可继续持有".
Definition advice_risk_control : string := "当前亏损较大，注意风险控制".
Definition advice_loss : string := "当前亏损，可考虑补仓或止损".
Definition advice_buy_signal : string := "技术面显示买入信号".
Definition advice_sell_signal : string := "技术面显示卖出信号".
Definition advice_volatility : string := "波动率较高，注意风险".

(** The advice list and the risk level, as the sequence of updates of
    [get_comprehensive_advice] leaves them. *)
Definition advise (pl : ProfitLoss) (trend : string) (volatility : Q)
    : list string * string :=
  let advice := [] in
  let risk_level := risk_low in
  let '(advice, risk_level) :=
    if Qgtb (profit_loss pl) 0 then
      if Qgtb (profit_loss_rate pl) 20
      then (advice ++ [advice_take_profit], risk_level)
      else (advice ++ [advice_hold], risk_level)
    else
      if Qltb (profit_loss_rate pl) (-20)
      then (advice ++ [advice_risk_control], risk_high)
      else (advice ++ [advice_loss], risk_medium) in
  let advice :=
    if Py.contains "买入" trend then advice ++ [advice_buy_signal]
    else if Py.contains "卖出" trend then advice ++ [advice_sell_signal]
    else advice in
  if Qgtb volatility (1 # 2)
  then (advice ++ [advice_volatility], risk_high)
  else (advice, risk_level).

Definition get_comprehensive_advice (calculator : StockCalculator)
    (current_price : Q) (historical_prices : list Q) : result Bundle :=
  match historical_prices with
  | [] => Ok (ErrorBundle "历史数据不足")
  | _ =>
      let position := get_position_summary calculator in
      let profit_loss := calculate_profit_loss calculator current_price in
      trend ← analyze_trend historical_prices 5 20;
      rsi_signal ← analyze_rsi_signal historical_prices;
      volatility ← calculate_volatility historical_prices;
      max_dd ← calculate_max_drawdown historical_prices;
      let '(advice, risk_level) := advise profit_loss trend volatility in
      Ok (AdviceBundle
            (mkAdvice position profit_loss
                      (mkTech trend rsi_signal)
                      (mkRisk volatility max_dd risk_level)
                      advice))
  end.

(** *** StockAnalyzer *)

Record StockAnalyzer := mkAnalyzer {
  calculator : StockCalculator;
  price_history : list PricePoint
}.

(** [StockAnalyzer.__init__] *)
Definition new_analyzer (c : StockCalculator) : StockAnalyzer :=
  mkAnalyzer c [].

Definition add_price_history (a : StockAnalyzer) (d : datetime) (p : Q)
    (volume : Z) : StockAnalyzer :=
  mkAnalyzer (calculator a)
             (sort_by pp_date (price_history a ++ [mkPoint d p volume])).

Definition get_price_list (a : StockAnalyzer) : list Q :=
  map pp_price (price_history a).

Definition analyze_stock (a : StockAnalyzer) (current_price : Q)
    : result Bundle :=
  let prices := get_price_list a in
  let prices := match prices with [] => [current_price] | _ => prices end in
  get_comprehensive_advice (calculator a) current_price prices.

End Analyzer.

(** ** app.py

    The handler of [/api/add_trade], as the update it makes to the global
    portfolio once the fields of the request have been converted.  The
    calculator that [add_stock] returns is the object stored in
    [portfolio.stocks], so [calculator.buy] and [calculator.sell] change the
    stored entry in place. *)

Definition api_add_trade (portfolio : StockPortfolio)
    (stock_code action : string) (price : Q) (shares : Z) (commission : Q)
    (description : string) (trade_date : datetime) : StockPortfolio :=
  let '(portfolio, calculator) := add_stock portfolio stock_code in
  if String.eqb action "buy" then
    mkPortfolio
      (Dict.set (stocks portfolio) stock_code
         (buy calculator trade_date price shares commission description))
  else if String.eqb action "sell" then
    mkPortfolio
      (Dict.set (stocks portfolio) stock_code
         (sell calculator trade_date price shares commission description))
  else portfolio.

(** ** The ledger in binary64 arithmetic

    Where the order of the additions matters, the replay of the ledger is
    taken on binary64 numbers, the [float] of Python: [F64] repeats the
    ledger part of [stock_calculator.py] with the primitive floating-point
    operations.  An integer is converted with rounding to nearest, ties to
    even; integers beyond the binary64 range, for which Python raises
    [OverflowError], are outside this model, and the quotient of two
    integers is exact to one rounding for operands below 2^53. *)

Module F64.

Import PrimFloat.

(** [float(n)] for an [int] [n]. *)
Definition of_int (n : Z) : float :=
  FloatOps.SF2Prim
    (SpecFloat.binary_normalize FloatOps.prec FloatOps.emax n 0 false).

Record Trade := mkTrade {
  date : datetime;
  action : string;
  price : float;
  shares : Z;
  commission : float;
  description : string
}.

Record StockCalculator := mkCalc {
  stock_code : string;
  trades : list Trade;
  current_shares : Z;
  total_cost : float;
  total_commission : float
}.

Definition new_calculator (code : string) : StockCalculator :=
  mkCalc code [] 0%Z 0%float 0%float.

Record Position := mkPos {
  pos_shares : Z;
  pos_cost : float;
  pos_commission : float
}.

Definition sell_ratio (t : Trade) (held : Z) : float :=
  (of_int (shares t) / of_int held)%float.

(** One iteration of the loop of [_recalculate_position]. *)
Definition apply_trade (p : Position) (t : Trade) : Position :=
  if String.eqb (action t) "buy" then
    mkPos (pos_shares p + shares t)%Z
          (pos_cost p + price t * of_int (shares t))%float
          (pos_commission p + commission t)%float
  else if String.eqb (action t) "sell" then
    if (0 <? pos_shares p)%Z then
      mkPos (pos_shares p - shares t)%Z
            (pos_cost p * (1 - sell_ratio t (pos_shares p)))%float
            (pos_commission p + commission t)%float
    else p
  else p.

Definition replay (ts : list Trade) : Position :=
  fold_left apply_trade ts (mkPos 0%Z 0%float 0%float).

Definition _recalculate_position (c : StockCalculator) : StockCalculator :=
  let p := replay (trades c) in
  mkCalc (stock_code c) (trades c) (pos_shares p) (pos_cost p) (pos_commission p).

Definition add_trade (c : StockCalculator) (t : Trade) : StockCalculator :=
  _recalculate_position
    (mkCalc (stock_code c) (sort_by date (trades c ++ [t]))
            (current_shares c) (total_cost c) (total_commission c)).

Definition buy (c : StockCalculator) (d : datetime) (p : float) (n : Z)
    (com : float) (descr : string) : StockCalculator :=
  add_trade c (mkTrade d "buy" p n com descr).

Definition sell (c : StockCalculator) (d : datetime) (p : float) (n : Z)
    (com : float) (descr : string) : StockCalculator :=
  add_trade c (mkTrade d "sell" p n com descr).


(** *** Vocabulary of the statements *)




(** The calculator obtained by entering the trades [ts], in this order,
    in a fresh calculator. *)
Definition enter_all (code : string) (ts : list Trade) : StockCalculator :=
  fold_left add_trade ts (new_calculator code).




End F64.

(** * Vocabulary of the statements and example data *)

(** The ledger of [main]: buy, sell everything, buy again. *)
Definition round_trip : StockCalculator :=
  let c := new_calculator "000001" in
  let c := buy c 20240101 20.00 500 5 "" in
  let c := sell c 20240115 19.88 500 5 "" in
  buy c 20240120 20.14 500 5 "".

(** A purchase of 100 shares followed by a sale of 150. *)
Definition oversell_ledger : list Trade :=
  [mkTrade 1 "buy" 10 100 0 ""].

Definition oversell_trade : Trade := mkTrade 2 "sell" 10 150 0 "".

(** Whether the loop body of [_recalculate_position] changes the position
    for the trade [t] when [held] shares are held. *)
Definition takes_effect (held : Z) (t : Trade) : bool :=
  String.eqb (action t) "buy"
  || (String.eqb (action t) "sell" && (0 <? held)%Z).

(** The trades of a ledger that take effect during the replay from [p]. *)
Fixpoint effective (p : Position) (ts : list Trade) : list Trade :=
  match ts with
  | [] => []
  | t :: ts' =>
      (if takes_effect (pos_shares p) t then [t] else [])
      ++ effective (apply_trade p t) ts'
  end.

(** A sell entered in an empty ledger. *)
Definition ignored_sell : Trade := mkTrade 1 "sell" 5 10 1 "".



Definition two_stock_portfolio : StockPortfolio :=
  mkPortfolio
    [("A"%string, buy (new_calculator "A") 1 10 100 5 "");
     ("B"%string, buy (new_calculator "B") 1 20 10 0 "")].


(** Every price is at least the one before it. *)
Definition non_decreasing (prices : list Q) : Prop :=
  forall (i : nat) (a b : Q),
    prices !! i = Some a -> prices !! S i = Some b -> a <= b.

(** A checker for [non_decreasing]. *)
Fixpoint non_decreasingb (prices : list Q) : bool :=
  match prices with
  | a :: (b :: _) as rest => Qle_bool a b && non_decreasingb rest
  | _ => true
  end.

Definition rising_prices : list Q := [10; 10.5; 11; 11.5; 12].

(** Nineteen prices of 1 followed by a price of 100. *)
Definition late_jump : list Q := repeat 1 19 ++ [100].

(** A rational approximation from below of the square root, to six
    decimals; it instantiates [math.sqrt] in the examples. *)
Definition sqrt_floor (x : Q) : Q :=
  inject_Z (Z.sqrt (Qnum x * 10 ^ 12 / Zpos (Qden x))) / inject_Z (10 ^ 6).

(** The zero-filled record of [calculate_profit_loss]. *)
Definition zero_profit_loss : ProfitLoss := mkPL 0 0 0 0.

(** The advice line derived from the trend text. *)
Definition technical_advice (trend : string) : list string :=
  if Py.contains "买入" trend then [advice_buy_signal]
  else if Py.contains "卖出" trend then [advice_sell_signal]
  else [].

(** The advice line derived from the volatility. *)
Definition volatility_advice (volatility : Q) : list string :=
  if Qgtb volatility (1 # 2) then [advice_volatility] else [].

(** Ascending order of the keys, as [list.sort(key=...)] leaves a list. *)
Definition ascending {A : Type} (key : A -> datetime) (l : list A) : Prop :=
  StronglySorted (fun x y => (key x <= key y)%Z) l.

(** The calculator obtained by entering the trades [ts], in this order,
    in a fresh calculator. *)
Definition enter_all (code : string) (ts : list Trade) : StockCalculator :=
  fold_left add_trade ts (new_calculator code).

Definition mixed_trades : list Trade :=
  [mkTrade 1 "buy" 10 100 1 ""; mkTrade 5 "sell" 12 40 1 "";
   mkTrade 3 "buy" 11 50 1 ""].

Definition is_sell (t : Trade) : Prop := action t = "sell"%string.

(** Whether the action of a trade is one of the two the replay knows. *)
Definition known_action (t : Trade) : bool :=
  String.eqb (action t) "buy" || String.eqb (action t) "sell".

(** The fractional decline from the price [peak] to the price [price]. *)
Definition decline (peak price : Q) : Q := (peak - price) / peak.

(** Every price is below the one before it. *)
Definition strictly_decreasing (prices : list Q) : Prop :=
  forall (i : nat) (a b : Q),
    prices !! i = Some a -> prices !! S i = Some b -> b < a.

(** A checker for [strictly_decreasing]. *)
Fixpoint strictly_decreasingb (prices : list Q) : bool :=
  match prices with
  | a :: (b :: _) as rest => Qltb b a && strictly_decreasingb rest
  | _ => true
  end.

Definition rsi_overbought : string := "超买信号，考虑卖出".
Definition rsi_oversold : string := "超卖信号，考虑买入".

Definition falling_prices : list Q :=
  map (fun k => 40 - inject_Z (Z.of_nat k)) (seq 0 16).

Definition flat_prices : list Q := repeat 20 16.

(** The five texts [analyze_trend] can return. *)
Definition trend_texts : list string :=
  [insufficient_data; golden_cross; death_cross; bullish; bearish].

(** The analyzer obtained by recording the points [pts], in this order, on
    a fresh analyzer. *)
Definition record_all (c : StockCalculator) (pts : list PricePoint)
    : StockAnalyzer :=
  fold_left
    (fun a pt => add_price_history a (pp_date pt) (pp_price pt) (pp_volume pt))
    pts (new_analyzer c).

Definition three_points : list PricePoint :=
  [mkPoint 3 12 100; mkPoint 1 10 100; mkPoint 2 11 100].


(** * Properties *)

(** ** Comparisons and sums on the rationals *)

Lemma Qltb_lt (x y : Q) : Qltb x y = true <-> x < y.
Proof.
  unfold Qltb. rewrite negb_true_iff, <- not_true_iff_false, Qle_bool_iff.
  split; [apply Qnot_le_lt | apply Qlt_not_le].
Qed.

Lemma Qltb_ge (x y : Q) : Qltb x y = false <-> y <= x.
Proof.
  unfold Qltb. rewrite negb_false_iff. apply Qle_bool_iff.
Qed.

Lemma Qgtb_gt (x y : Q) : Qgtb x y = true <-> y < x.
Proof. apply Qltb_lt. Qed.

Lemma Qgtb_le (x y : Q) : Qgtb x y = false <-> x <= y.
Proof. apply Qltb_ge. Qed.


Lemma fold_plus_shift (l : list Q) (a : Q) :
  fold_left Qplus l a == a + sum l.
Proof.
  unfold sum. revert a. induction l as [|x l IH]; intros a; simpl.
  - lra.
  - rewrite (IH (a + x)), (IH (0 + x)). lra.
Qed.

Lemma sum_cons (x : Q) (l : list Q) : sum (x :: l) == x + sum l.
Proof. unfold sum at 1. simpl. rewrite fold_plus_shift. lra. Qed.

Lemma sum_nonneg (l : list Q) : Forall (fun x => 0 <= x) l -> 0 <= sum l.
Proof.
  induction 1 as [|x l Hx _ IH].
  - unfold sum. simpl. lra.
  - rewrite sum_cons. lra.
Qed.

Lemma sum_zero (l : list Q) : Forall (fun x => x == 0) l -> sum l == 0.
Proof.
  induction 1 as [|x l Hx _ IH].
  - reflexivity.
  - rewrite sum_cons, Hx, IH. lra.
Qed.

(** ** Position accounting *)

(** C6. Buying 500 at 20.00, selling 500 at 19.88 and buying 500 at 20.14,
    each with commission 5, leaves 500 shares at a total cost of
    20.14 * 500 = 10070, a total commission of 15 and an average cost of
    20.14; at the price 20.50 the market value is 10250, the total
    investment 10085, the profit 165 and the profit rate 100 * 165 / 10085,
    which lies between 1.636 and 1.637. *)
Theorem round_trip_position :
  map action (trades round_trip) = ["buy"; "sell"; "buy"]%string /\
  current_shares round_trip = 500%Z /\
  total_cost round_trip == 20.14 * 500 /\
  total_cost round_trip == 10070 /\
  total_commission round_trip == 15 /\
  get_average_cost round_trip == 20.14 /\
  let r := calculate_profit_loss round_trip 20.50 in
  market_value r == 10250 /\
  total_investment r == 10085 /\
  profit_loss r == 165 /\
  profit_loss_rate r == 100 * 165 / 10085 /\
  1.636 < profit_loss_rate r < 1.637.
Proof. vm_compute. intuition congruence. Qed.

(** The calculator fields after [add_trade] are the replayed position of the
    re-sorted ledger. *)
Lemma add_trade_trades (c : StockCalculator) (t : Trade) :
  trades (add_trade c t) = sort_by date (trades c ++ [t]).
Proof. reflexivity. Qed.

(** *** Over-selling *)

(** C4. There is a ledger with a sell of more shares than the positive
    number held at that point: its sell ratio exceeds 1, and after the
    replay the total cost and the shares held are both negative. *)
Theorem oversell_drives_position_negative :
  exists (ts : list Trade) (t : Trade),
    let held := pos_shares (replay ts) in
    action t = "sell"%string /\
    (0 < held)%Z /\ (held < shares t)%Z /\
    1 < sell_ratio t held /\
    let c := add_trade (fold_left add_trade ts (new_calculator "")) t in
    trades c = ts ++ [t] /\
    total_cost c < 0 /\ (current_shares c < 0)%Z.
Proof.
  exists oversell_ledger, oversell_trade. vm_compute.
  repeat split; congruence.
Qed.

(** *** Commission *)

Lemma apply_trade_commission (p : Position) (t : Trade) :
  pos_commission (apply_trade p t) =
  if takes_effect (pos_shares p) t
  then pos_commission p + commission t
  else pos_commission p.
Proof.
  unfold apply_trade, takes_effect.
  destruct (String.eqb (action t) "buy"); [reflexivity|].
  destruct (String.eqb (action t) "sell"); [|reflexivity].
  destruct (0 <? pos_shares p)%Z; reflexivity.
Qed.

Lemma apply_trade_ignored (p : Position) (t : Trade) :
  takes_effect (pos_shares p) t = false -> apply_trade p t = p.
Proof.
  unfold apply_trade, takes_effect.
  destruct (String.eqb (action t) "buy"); [discriminate|].
  destruct (String.eqb (action t) "sell"); [|reflexivity].
  destruct (0 <? pos_shares p)%Z; [discriminate|reflexivity].
Qed.

Lemma replay_commission_from (ts : list Trade) (p : Position) :
  pos_commission (fold_left apply_trade ts p)
  == pos_commission p + sum (map commission (effective p ts)).
Proof.
  revert p. induction ts as [|t ts IH]; intros p; simpl.
  - unfold sum. simpl. lra.
  - rewrite IH, apply_trade_commission.
    destruct (takes_effect (pos_shares p) t); simpl.
    + rewrite sum_cons. lra.
    + lra.
Qed.

(** C3, as stated, fails: a sell that arrives while no share is held leaves
    the total commission at 0, although its commission is 1. *)
Lemma commission_of_ignored_sell_dropped :
  let c := add_trade (new_calculator "") ignored_sell in
  trades c = [ignored_sell] /\
  ~ total_commission c == sum (map commission (trades c)).
Proof.
  vm_compute. split; [reflexivity|]. intros H. discriminate H.
Qed.

(** C3, amended. After replaying any ledger the total commission is the sum
    of the commissions of the trades that took effect: every buy, and every
    sell that arrived while the shares held were positive; each such trade
    adds its commission and nothing is ever subtracted.  A sell that arrives
    while the shares held are zero or negative leaves the whole position
    unchanged, its commission included. *)
Theorem commission_accumulates_over_effective_trades :
  (forall c : StockCalculator,
     total_commission (_recalculate_position c)
     == sum (map commission (effective (mkPos 0 0 0) (trades c)))) /\
  (forall (p : Position) (t : Trade),
     pos_commission (apply_trade p t) =
     if takes_effect (pos_shares p) t
     then pos_commission p + commission t
     else pos_commission p) /\
  (forall (p : Position) (t : Trade),
     action t = "sell"%string -> (pos_shares p <= 0)%Z ->
     apply_trade p t = p).
Proof.
  split; [|split].
  - intros c. simpl. unfold replay. rewrite replay_commission_from. simpl. lra.
  - apply apply_trade_commission.
  - intros p t Hact Hheld. apply apply_trade_ignored.
    unfold takes_effect. rewrite Hact. simpl.
    apply Z.ltb_ge. exact Hheld.
Qed.

Lemma commission_accumulates_over_effective_trades_witness :
  apply_trade (mkPos 0 0 0) ignored_sell = mkPos 0 0 0.
Proof.
  apply (proj2 (proj2 commission_accumulates_over_effective_trades)).
  - reflexivity.
  - simpl. lia.
Defined.

(** *** The ledger as a permutation of the trades entered *)

Lemma insert_by_perm {A} (key : A -> datetime) (x : A) (l : list A) :
  Permutation (x :: l) (insert_by key x l).
Proof.
  induction l as [|y l IH]; simpl.
  - reflexivity.
  - destruct (key x <=? key y)%Z.
    + reflexivity.
    + rewrite perm_swap. constructor. exact IH.
Qed.

Lemma sort_by_perm {A} (key : A -> datetime) (l : list A) :
  Permutation l (sort_by key l).
Proof.
  induction l as [|x l IH]; simpl.
  - constructor.
  - rewrite <- insert_by_perm. constructor. exact IH.
Qed.

Lemma add_all_trades_perm (ts : list Trade) (c : StockCalculator) :
  Permutation (trades c ++ ts) (trades (fold_left add_trade ts c)).
Proof.
  revert c. induction ts as [|t ts IH]; intros c; simpl.
  - rewrite app_nil_r. reflexivity.
  - rewrite <- IH, add_trade_trades, <- sort_by_perm.
    rewrite <- app_assoc. reflexivity.
Qed.

(** ** Portfolio summary *)

Section Summary.

Variable current_prices : gmap string Q.


Lemma dict_set_fresh {V} (d : Dict.t V) (k : string) (v : V) :
  ~ In k (Dict.keys d) -> Dict.set d k v = d ++ [(k, v)].
Proof.
  induction d as [|[k' v'] d IH]; simpl; intros Hk.
  - reflexivity.
  - destruct (String.eqb_spec k k') as [->|Hne].
    + exfalso. apply Hk. left. reflexivity.
    + rewrite IH; [reflexivity|]. intros Hin. apply Hk. right. exact Hin.
Qed.


End Summary.



(** ** The Python runtime model *)

Section Runtime.

Context {A B : Type}.

Lemma mapM_total (f : A -> result B) (P : B -> Prop) (l : list A) :
  Forall (fun x => exists y, f x = Ok y /\ P y) l ->
  exists k, mapM f l = Ok k /\ Forall P k /\ length k = length l.
Proof.
  induction 1 as [|x l (y & Hx & Hy) _ (k & Hk & HP & Hlen)].
  - exists []. repeat split. constructor.
  - exists (y :: k). simpl. rewrite Hx. simpl. rewrite Hk. simpl.
    repeat split; [constructor; assumption | congruence].
Qed.

Lemma mapM_Raise (f : A -> result B) (x : A) (l : list A) (e : exn) :
  f x = Raise e -> mapM f (x :: l) = Raise e.
Proof. intros Hx. simpl. rewrite Hx. reflexivity. Qed.

End Runtime.

Lemma range_In (a b i : Z) : In i (Py.range a b) <-> (a <= i < b)%Z.
Proof.
  unfold Py.range. rewrite in_map_iff. split.
  - intros (k & <- & Hk). apply in_seq in Hk. lia.
  - intros Hi. exists (Z.to_nat (i - a)). split; [lia|].
    apply in_seq. lia.
Qed.

Lemma range_length (a b : Z) : length (Py.range a b) = Z.to_nat (b - a).
Proof. unfold Py.range. rewrite length_map, length_seq. reflexivity. Qed.

Lemma range_cons (a b : Z) :
  (a < b)%Z -> Py.range a b = a :: Py.range (a + 1) b.
Proof.
  intros Hab. unfold Py.range.
  replace (Z.to_nat (b - a)) with (S (Z.to_nat (b - (a + 1)))) by lia.
  simpl. f_equal; [lia|].
  rewrite <- seq_shift, map_map. apply map_ext. intros k. lia.
Qed.


Lemma index_nonneg {A} (l : list A) (i : Z) :
  (0 <= i)%Z ->
  Py.index l i = match l !! Z.to_nat i with
                 | Some x => Ok x
                 | None => Raise IndexError
                 end.
Proof.
  intros Hi. unfold Py.index.
  destruct (Z.ltb_spec i 0) as [|_]; [lia|].
  destruct (Z.ltb_spec i 0) as [|_]; [lia|]. reflexivity.
Qed.

Lemma index_in_range {A} (l : list A) (i : Z) :
  (0 <= i < Py.len l)%Z ->
  exists x, Py.index l i = Ok x /\ l !! Z.to_nat i = Some x.
Proof.
  intros Hi. rewrite index_nonneg by lia.
  destruct (lookup_lt_is_Some_2 l (Z.to_nat i)) as [x Hx].
  - unfold Py.len in Hi. lia.
  - exists x. rewrite Hx. split; reflexivity.
Qed.

Lemma index_from_end {A} (l : list A) (i : Z) :
  (- Py.len l <= i < 0)%Z ->
  exists x, Py.index l i = Ok x /\ l !! Z.to_nat (i + Py.len l) = Some x.
Proof.
  intros Hi. unfold Py.index.
  destruct (Z.ltb_spec i 0) as [_|]; [|lia].
  destruct (Z.ltb_spec (i + Py.len l) 0) as [|_]; [lia|].
  destruct (lookup_lt_is_Some_2 l (Z.to_nat (i + Py.len l))) as [x Hx].
  - unfold Py.len in *. lia.
  - exists x. rewrite Hx. split; reflexivity.
Qed.


Lemma slice_Forall {A} (P : A -> Prop) (l : list A) (a b : Z) :
  Forall P l -> Forall P (Py.slice l a b).
Proof.
  intros Hl. unfold Py.slice. apply Forall_take, Forall_drop. exact Hl.
Qed.

Lemma div_Ok (x y : Q) : ~ y == 0 -> Py.div x y = Ok (x / y).
Proof.
  intros Hy. unfold Py.div.
  destruct (Qeq_bool y 0) eqn:E; [|reflexivity].
  apply Qeq_bool_iff in E. contradiction.
Qed.

Lemma of_int_nonzero (n : Z) : n <> 0%Z -> ~ of_int n == 0.
Proof.
  intros Hn H. unfold of_int, inject_Z, Qeq in H. simpl in H. lia.
Qed.

Lemma of_int_pos (n : Z) : (0 < n)%Z -> 0 < of_int n.
Proof. intros Hn. unfold of_int, inject_Z, Qlt. simpl. lia. Qed.

Lemma of_int_neg (n : Z) : (n < 0)%Z -> of_int n < 0.
Proof. intros Hn. unfold of_int, inject_Z, Qlt. simpl. lia. Qed.

(** ** Momentum oscillator *)

Lemma Qdiv_nonneg (a b : Q) : 0 <= a -> 0 < b -> 0 <= a / b.
Proof. intros Ha Hb. apply Qle_shift_div_l; lra. Qed.

Lemma Qdiv_neg_neg (a b : Q) : a <= 0 -> b < 0 -> 0 <= a / b.
Proof.
  intros Ha Hb.
  assert (E : a / b == (- a) / (- b)) by (field; lra).
  rewrite E. apply Qdiv_nonneg; lra.
Qed.

Lemma Qdiv_nonneg_neg (a b : Q) : 0 <= a -> b < 0 -> a / b <= 0.
Proof.
  intros Ha Hb.
  assert (E : a / b == - (a / (- b))) by (field; lra).
  rewrite E. pose proof (Qdiv_nonneg a (- b) Ha). lra.
Qed.

Lemma rsi_value_saturated (avg_gain avg_loss : Q) :
  avg_loss == 0 -> rsi_value avg_gain avg_loss = Ok 100.
Proof.
  intros Hl. unfold rsi_value. apply Qeq_bool_iff in Hl. rewrite Hl.
  reflexivity.
Qed.

Lemma rsi_value_bounds (avg_gain avg_loss : Q) :
  (0 <= avg_gain /\ 0 <= avg_loss) \/ (avg_gain <= 0 /\ avg_loss <= 0) ->
  exists v, rsi_value avg_gain avg_loss = Ok v /\ 0 <= v <= 100.
Proof.
  intros Hsign. unfold rsi_value.
  destruct (Qeq_bool avg_loss 0) eqn:E.
  - exists 100. split; [reflexivity | lra].
  - assert (Hne : ~ avg_loss == 0).
    { intros H. apply Qeq_bool_iff in H. congruence. }
    assert (Hrs : 0 <= avg_gain / avg_loss).
    { destruct Hsign as [[Hg Hl]|[Hg Hl]].
      - apply Qdiv_nonneg; lra.
      - apply Qdiv_neg_neg; lra. }
    rewrite (div_Ok _ _ Hne). simpl.
    rewrite div_Ok by lra. simpl.
    eexists. split; [reflexivity|].
    set (rs := avg_gain / avg_loss) in *.
    split.
    + assert (100 / (1 + rs) <= 100); [|lra].
      apply Qle_shift_div_r; lra.
    + pose proof (Qdiv_nonneg 100 (1 + rs)). lra.
Qed.

Lemma py_max_zero_nonneg (c : Q) : 0 <= Py.max c 0.
Proof.
  unfold Py.max. destruct (Qgtb 0 c) eqn:E; [lra|].
  apply Qgtb_le in E. exact E.
Qed.

Lemma py_max_zero_of_nonpos (c : Q) : c <= 0 -> Py.max c 0 == 0.
Proof.
  intros Hc. unfold Py.max. destruct (Qgtb 0 c) eqn:E; [reflexivity|].
  apply Qgtb_le in E. lra.
Qed.

Lemma gain_loss_total (prices : list Q) (i : Z) :
  (1 <= i < Py.len prices)%Z ->
  exists g l, gain_loss prices i = Ok (g, l) /\
    0 <= g /\ 0 <= l /\ (non_decreasing prices -> l == 0).
Proof.
  intros Hi. unfold gain_loss.
  destruct (index_in_range prices i) as (a & Ha & La); [lia|].
  destruct (index_in_range prices (i - 1)) as (b & Hb & Lb); [lia|].
  rewrite Ha. simpl. rewrite Hb. simpl.
  eexists _, _. split; [reflexivity|].
  split; [apply py_max_zero_nonneg|].
  split; [apply py_max_zero_nonneg|].
  intros Hmono. apply py_max_zero_of_nonpos.
  assert (b <= a); [|lra].
  apply (Hmono (Z.to_nat (i - 1))); [exact Lb|].
  replace (S (Z.to_nat (i - 1))) with (Z.to_nat i) by lia. exact La.
Qed.

Lemma window_mean (w : list Q) (period : Z) :
  period <> 0%Z -> Forall (fun x => 0 <= x) w ->
  exists m, Py.div (sum w) (of_int period) = Ok m /\
    m == sum w / of_int period /\
    ((0 < period)%Z -> 0 <= m) /\ ((period < 0)%Z -> m <= 0).
Proof.
  intros Hp Hw. rewrite div_Ok by (apply of_int_nonzero; exact Hp).
  eexists. split; [reflexivity|]. split; [reflexivity|].
  pose proof (sum_nonneg w Hw) as Hs. split; intros Hsign.
  - apply Qdiv_nonneg; [exact Hs | apply of_int_pos; exact Hsign].
  - apply Qdiv_nonneg_neg; [exact Hs | apply of_int_neg; exact Hsign].
Qed.

Lemma calculate_rsi_total (prices : list Q) (period : Z) :
  period <> 0%Z ->
  exists vs, calculate_rsi prices period = Ok vs /\
    Forall (fun v => 0 <= v <= 100) vs /\
    length vs = (if (Py.len prices <? period + 1)%Z then 0%nat
                 else Z.to_nat (Py.len prices - period)) /\
    (non_decreasing prices -> Forall (fun v => v = 100) vs).
Proof.
  intros Hp. unfold calculate_rsi.
  destruct (Py.len prices <? period + 1)%Z.
  { exists []. repeat split; constructor. }
  destruct (mapM_total (gain_loss prices)
              (fun gl => 0 <= fst gl /\ 0 <= snd gl /\
                         (non_decreasing prices -> snd gl == 0))
              (Py.range 1 (Py.len prices))) as (gl & Hgl & Pgl & _).
  { apply List.Forall_forall. intros i Hi. apply range_In in Hi.
    destruct (gain_loss_total prices i Hi) as (g & l & E & Hg & Hl & Hm).
    exists (g, l). auto. }
  rewrite Hgl. simpl.
  assert (Hgains : Forall (fun x => 0 <= x) (map fst gl)).
  { apply List.Forall_map. eapply List.Forall_impl; [|exact Pgl]. simpl. tauto. }
  assert (Hlosses : Forall (fun x => 0 <= x) (map snd gl)).
  { apply List.Forall_map. eapply List.Forall_impl; [|exact Pgl]. simpl. tauto. }
  assert (Hzero : non_decreasing prices -> Forall (fun x => x == 0) (map snd gl)).
  { intros Hm. apply List.Forall_map. eapply List.Forall_impl; [|exact Pgl].
    simpl. intros x (_ & _ & H). exact (H Hm). }
  match goal with |- context [mapM ?f ?l] =>
    destruct (mapM_total f
                (fun v => 0 <= v <= 100 /\ (non_decreasing prices -> v = 100)) l)
      as (vs & Hvs & Pvs & Hlen)
  end.
  { apply List.Forall_forall. intros i _.
    destruct (window_mean (Py.slice (map fst gl) (i - period) i) period Hp)
      as (ag & Eag & _ & Hag_pos & Hag_neg); [apply slice_Forall, Hgains|].
    destruct (window_mean (Py.slice (map snd gl) (i - period) i) period Hp)
      as (al & Eal & Hal & Hal_pos & Hal_neg); [apply slice_Forall, Hlosses|].
    rewrite Eag. simpl. rewrite Eal. simpl.
    destruct (rsi_value_bounds ag al) as (v & Ev & Hv).
    { destruct (Z.lt_total period 0) as [Hneg|[Hz|Hpos]]; [right|lia|left];
        auto. }
    exists v. split; [exact Ev|]. split; [exact Hv|].
    intros Hm.
    assert (Hsat : rsi_value ag al = Ok 100).
    { apply rsi_value_saturated. rewrite Hal.
      rewrite (sum_zero _ (slice_Forall _ _ _ _ (Hzero Hm))).
      field. apply of_int_nonzero. exact Hp. }
    congruence. }
  exists vs. split; [exact Hvs|]. split.
  - eapply List.Forall_impl; [|exact Pvs]. simpl. tauto.
  - split.
    + rewrite Hlen, range_length. reflexivity.
    + intros Hm. eapply List.Forall_impl; [|exact Pvs]. simpl.
      intros v [_ H]. exact (H Hm).
Qed.

Lemma non_decreasingb_sound (prices : list Q) :
  non_decreasingb prices = true -> non_decreasing prices.
Proof.
  induction prices as [|a [|b rest] IH]; intros Hc i x y Hx Hy.
  - destruct i; discriminate.
  - destruct i; discriminate.
  - simpl in Hc. apply andb_true_iff in Hc as [Hab Hrest].
    destruct i as [|i].
    + simpl in Hx, Hy. injection Hx as <-. injection Hy as <-.
      apply Qle_bool_iff. exact Hab.
    + apply (IH Hrest i x y); assumption.
Qed.




(** ** Moving averages and the trend signal *)

Lemma calculate_sma_total (prices : list Q) (period : Z) :
  period <> 0%Z ->
  exists vs, calculate_sma prices period = Ok vs /\
    length vs = (if (Py.len prices <? period)%Z then 0%nat
                 else Z.to_nat (Py.len prices - (period - 1))).
Proof.
  intros Hp. unfold calculate_sma.
  destruct (Py.len prices <? period)%Z.
  { exists []. split; reflexivity. }
  match goal with |- context [mapM ?f ?l] =>
    destruct (mapM_total f (fun _ => True) l) as (vs & Hvs & _ & Hlen)
  end.
  { apply List.Forall_forall. intros i _. eexists. split; [|exact I].
    apply div_Ok, of_int_nonzero, Hp. }
  exists vs. split; [exact Hvs|]. rewrite Hlen. apply range_length.
Qed.


Lemma index_last_total {A} (x : A) (l : list A) :
  exists y, Py.index (x :: l) (-1) = Ok y.
Proof.
  destruct (index_from_end (x :: l) (-1)) as (y & Hy & _).
  - unfold Py.len. simpl. lia.
  - exists y. exact Hy.
Qed.

Lemma previous_total (sma : list Q) (current : Q) :
  exists y, previous sma current = Ok y.
Proof.
  unfold previous. destruct (Z.ltb_spec 1 (Py.len sma)) as [Hlen|_].
  - destruct (index_from_end sma (-2)) as (y & Hy & _); [lia|].
    exists y. exact Hy.
  - exists current. reflexivity.
Qed.

Lemma analyze_trend_total (prices : list Q) (short_period long_period : Z) :
  short_period <> 0%Z -> long_period <> 0%Z ->
  exists s, analyze_trend prices short_period long_period = Ok s.
Proof.
  intros Hs Hl. unfold analyze_trend.
  destruct (Py.len prices <? long_period)%Z; [eexists; reflexivity|].
  destruct (calculate_sma_total prices short_period Hs) as (ss & Ess & _).
  destruct (calculate_sma_total prices long_period Hl) as (ls & Els & _).
  rewrite Ess. simpl. rewrite Els. simpl.
  destruct ss as [|s0 ss]; [eexists; reflexivity|].
  destruct ls as [|l0 ls]; [eexists; reflexivity|].
  destruct (index_last_total s0 ss) as (cs & Ecs).
  destruct (index_last_total l0 ls) as (cl & Ecl).
  rewrite Ecs. simpl. rewrite Ecl. simpl.
  destruct (previous_total (s0 :: ss) cs) as (ps & Eps).
  destruct (previous_total (l0 :: ls) cl) as (pl & Epl).
  rewrite Eps. simpl. rewrite Epl. simpl.
  eexists. reflexivity.
Qed.

Lemma analyze_rsi_signal_total (prices : list Q) :
  exists s, analyze_rsi_signal prices = Ok s.
Proof.
  unfold analyze_rsi_signal.
  destruct (calculate_rsi_total prices 14) as (vs & Evs & _); [lia|].
  rewrite Evs. simpl.
  destruct vs as [|v vs]; [eexists; reflexivity|].
  destruct (index_last_total v vs) as (cur & Ecur).
  rewrite Ecur. simpl.
  destruct (Qgtb cur 70); [eexists; reflexivity|].
  destruct (Qltb cur 30); [eexists; reflexivity|].
  destruct (Qgtb cur 50); eexists; reflexivity.
Qed.





(** ** Volatility *)

Lemma calculate_volatility_short (sqrt : Q -> Q) (prices : list Q) :
  (Py.len prices < 2)%Z -> calculate_volatility sqrt prices = Ok 0.
Proof.
  intros Hlen. unfold calculate_volatility.
  destruct (Z.ltb_spec (Py.len prices) 2) as [_|]; [reflexivity|lia].
Qed.

Lemma period_return_total (prices : list Q) (i : Z) :
  Forall (fun p => ~ p == 0) prices ->
  (1 <= i < Py.len prices)%Z ->
  exists r, period_return prices i = Ok r.
Proof.
  intros Hnz Hi. unfold period_return.
  destruct (index_in_range prices i) as (a & Ha & _); [lia|].
  destruct (index_in_range prices (i - 1)) as (b & Hb & Lb); [lia|].
  rewrite Ha. simpl. rewrite Hb. simpl.
  rewrite div_Ok; [eexists; reflexivity|].
  exact (Forall_lookup_1 _ _ _ _ Hnz Lb).
Qed.

Lemma calculate_volatility_long (sqrt : Q -> Q) (prices : list Q) :
  (3 <= Py.len prices)%Z ->
  Forall (fun p => ~ p == 0) prices ->
  exists returns var,
    mapM (period_return prices) (Py.range 1 (Py.len prices)) = Ok returns /\
    Py.len returns = (Py.len prices - 1)%Z /\
    statistics.variance returns = Ok var /\
    calculate_volatility sqrt prices = Ok (sqrt var * sqrt 252).
Proof.
  intros Hlen Hnz.
  destruct (mapM_total (period_return prices) (fun _ => True)
              (Py.range 1 (Py.len prices))) as (returns & Hr & _ & Hl).
  { apply List.Forall_forall. intros i Hi. apply range_In in Hi.
    destruct (period_return_total prices i Hnz Hi) as (r & Er).
    exists r. auto. }
  rewrite range_length in Hl.
  assert (Hlr : Py.len returns = (Py.len prices - 1)%Z).
  { unfold Py.len in *. lia. }
  assert (Hv : exists var, statistics.variance returns = Ok var).
  { unfold statistics.variance.
    destruct (Z.ltb_spec (Py.len returns) 2) as [|_]; [lia|].
    eexists. reflexivity. }
  destruct Hv as (var & Hv).
  exists returns, var. split; [exact Hr|]. split; [exact Hlr|].
  split; [exact Hv|].
  unfold calculate_volatility.
  destruct (Z.ltb_spec (Py.len prices) 2) as [|_]; [lia|].
  rewrite Hr. simpl. unfold statistics.stdev. rewrite Hv. reflexivity.
Qed.

Lemma calculate_volatility_two (sqrt : Q -> Q) (p0 p1 : Q) :
  ~ p0 == 0 ->
  calculate_volatility sqrt [p0; p1] = Raise StatisticsError.
Proof.
  intros Hp0. unfold calculate_volatility. simpl.
  unfold period_return. simpl. rewrite (div_Ok _ _ Hp0). reflexivity.
Qed.

(** C2 fails on the code.  [calculate_volatility] returns 0 on fewer than
    two prices, and on three or more prices, none of them zero, it returns
    the square root of the sample variance of the period returns times the
    square root of 252.  On exactly two prices, the first of them not zero,
    the single period return reaches [statistics.stdev], which raises
    [StatisticsError]: the guard only covers fewer than two prices. *)
Theorem volatility_guard_misses_two_prices (sqrt : Q -> Q) :
  (forall prices : list Q,
     (Py.len prices < 2)%Z -> calculate_volatility sqrt prices = Ok 0) /\
  (forall p0 p1 : Q,
     ~ p0 == 0 ->
     calculate_volatility sqrt [p0; p1] = Raise StatisticsError) /\
  (forall prices : list Q,
     (3 <= Py.len prices)%Z ->
     Forall (fun p => ~ p == 0) prices ->
     exists returns var,
       mapM (period_return prices) (Py.range 1 (Py.len prices)) = Ok returns /\
       statistics.variance returns = Ok var /\
       calculate_volatility sqrt prices = Ok (sqrt var * sqrt 252)).
Proof.
  split; [|split].
  - apply calculate_volatility_short.
  - apply calculate_volatility_two.
  - intros prices Hlen Hnz.
    destruct (calculate_volatility_long sqrt prices Hlen Hnz)
      as (returns & var & Hr & _ & Hv & E).
    exists returns, var. auto.
Qed.

Lemma volatility_guard_misses_two_prices_witness :
  calculate_volatility sqrt_floor [10] = Ok 0 /\
  calculate_volatility sqrt_floor [10; 11] = Raise StatisticsError /\
  exists v, calculate_volatility sqrt_floor [10; 11; 10] = Ok v.
Proof.
  pose proof (volatility_guard_misses_two_prices sqrt_floor)
    as (Hshort & Htwo & Hlong).
  split; [|split].
  - apply Hshort. reflexivity.
  - apply Htwo. intros H. discriminate H.
  - destruct (Hlong [10; 11; 10]) as (returns & var & _ & _ & E).
    + vm_compute. discriminate.
    + repeat constructor; intros H; discriminate H.
    + eexists. exact E.
Defined.

(** ** Comprehensive advice *)

Lemma advise_zero_profit_loss (trend : string) (volatility : Q) :
  advise zero_profit_loss trend volatility
  = (advice_loss :: technical_advice trend ++ volatility_advice volatility,
     if Qgtb volatility (1 # 2) then risk_high else risk_medium).
Proof.
  unfold advise, technical_advice, volatility_advice. simpl.
  destruct (Py.contains "买入" trend);
    [|destruct (Py.contains "卖出" trend)];
    destruct (Qgtb volatility (1 # 2)); reflexivity.
Qed.

Lemma no_position_profit_loss (c : StockCalculator) (current_price : Q) :
  current_shares c = 0%Z ->
  calculate_profit_loss c current_price = zero_profit_loss.
Proof. intros H. unfold calculate_profit_loss. rewrite H. reflexivity. Qed.

(** C1, as stated, fails: for a calculator without trades, one historical
    price and so a volatility of 0 and no trend signal, the risk level is
    "medium" and not "low". *)
Lemma no_position_risk_is_not_low :
  exists a : Advice,
    get_comprehensive_advice sqrt_floor (new_calculator "") 10 [10]
    = Ok (AdviceBundle a) /\
    current_shares (new_calculator "") = 0%Z /\
    trend (technical_analysis a) = insufficient_data /\
    volatility (risk_analysis a) = 0 /\
    advice a = [advice_loss] /\
    risk_level (risk_analysis a) = risk_medium /\
    risk_level (risk_analysis a) <> risk_low.
Proof.
  eexists. split; [reflexivity|]. simpl. repeat split. discriminate.
Qed.

(** C1, amended. For a calculator that holds no share, whenever the
    volatility and the maximum drawdown of the historical prices are
    defined, [get_comprehensive_advice] returns a bundle whose profit/loss
    record is the zero-filled one; its only profit/loss-based advice is the
    line of the break-even branch, followed by the technical and volatility
    lines; and its risk level is "medium", or "high" when the volatility
    exceeds 0.5.  The trend never changes the risk level. *)
Theorem no_position_advice (sqrt : Q -> Q) (c : StockCalculator)
    (current_price : Q) (historical_prices : list Q) (vol max_dd : Q) :
  current_shares c = 0%Z ->
  historical_prices <> [] ->
  calculate_volatility sqrt historical_prices = Ok vol ->
  calculate_max_drawdown historical_prices = Ok max_dd ->
  exists trend rsi_signal,
    analyze_trend historical_prices 5 20 = Ok trend /\
    analyze_rsi_signal historical_prices = Ok rsi_signal /\
    get_comprehensive_advice sqrt c current_price historical_prices
    = Ok (AdviceBundle
            (mkAdvice (get_position_summary c) zero_profit_loss
               (mkTech trend rsi_signal)
               (mkRisk vol max_dd
                  (if Qgtb vol (1 # 2) then risk_high else risk_medium))
               (advice_loss :: technical_advice trend ++ volatility_advice vol))).
Proof.
  intros Hshares Hne Hvol Hdd.
  destruct (analyze_trend_total historical_prices 5 20) as (t & Et); [lia..|].
  destruct (analyze_rsi_signal_total historical_prices) as (r & Er).
  exists t, r. split; [exact Et|]. split; [exact Er|].
  unfold get_comprehensive_advice.
  destruct historical_prices as [|h hs]; [congruence|].
  rewrite Et. simpl. rewrite Er. simpl. rewrite Hvol. simpl.
  rewrite Hdd. simpl.
  rewrite (no_position_profit_loss c current_price Hshares).
  rewrite advise_zero_profit_loss. reflexivity.
Qed.

Lemma no_position_advice_witness :
  exists trend rsi_signal vol max_dd,
    vol == 0 /\
    get_comprehensive_advice sqrt_floor (new_calculator "") 10 [10; 10; 10]
    = Ok (AdviceBundle
            (mkAdvice (get_position_summary (new_calculator ""))
               zero_profit_loss (mkTech trend rsi_signal)
               (mkRisk vol max_dd risk_medium)
               [advice_loss])).
Proof.
  destruct (calculate_volatility sqrt_floor [10; 10; 10]) as [vol|e] eqn:Ev;
    [|vm_compute in Ev; discriminate].
  destruct (calculate_max_drawdown [10; 10; 10]) as [dd|e] eqn:Ed;
    [|vm_compute in Ed; discriminate].
  destruct (no_position_advice sqrt_floor (new_calculator "") 10 [10; 10; 10]
              vol dd)
    as (t & r & Et & Er & E);
    [reflexivity | discriminate | exact Ev | exact Ed |].
  exists t, r, vol, dd. rewrite E.
  vm_compute in Et. injection Et as <-.
  vm_compute in Ev. injection Ev as <-.
  split; reflexivity.
Defined.

(** ** Analysis of an instrument without price history *)

Lemma advice_never_error_bundle (sqrt : Q -> Q) (c : StockCalculator)
    (current_price h : Q) (hs : list Q) (error : string) :
  get_comprehensive_advice sqrt c current_price (h :: hs)
  <> Ok (ErrorBundle error).
Proof.
  unfold get_comprehensive_advice.
  destruct (analyze_trend (h :: hs) 5 20); simpl; [|discriminate].
  destruct (analyze_rsi_signal (h :: hs)); simpl; [|discriminate].
  destruct (calculate_volatility sqrt (h :: hs)); simpl; [|discriminate].
  destruct (calculate_max_drawdown (h :: hs)); simpl; [|discriminate].
  destruct (advise _ _ _). discriminate.
Qed.

(** C10. [analyze_stock] replaces an empty price history by the one-element
    series made of the current price: it then returns an advice bundle
    whose trend is the "insufficient data" sentinel, and for no analyzer does
    it return the error bundle of [get_comprehensive_advice]. *)
Theorem analyze_stock_without_history (sqrt : Q -> Q) (a : StockAnalyzer)
    (current_price : Q) :
  (price_history a = [] ->
   analyze_stock sqrt a current_price
   = get_comprehensive_advice sqrt (calculator a) current_price [current_price]
   /\
   exists adv : Advice,
     analyze_stock sqrt a current_price = Ok (AdviceBundle adv) /\
     trend (technical_analysis adv) = insufficient_data /\
     (Py.len [current_price] < 20)%Z) /\
  (forall error : string,
     analyze_stock sqrt a current_price <> Ok (ErrorBundle error)).
Proof.
  split.
  - intros Hempty. unfold analyze_stock, get_price_list. rewrite Hempty.
    simpl. split; [reflexivity|].
    destruct (advise _ _ _) as [adv risk]. eexists.
    split; [reflexivity|]. split; [reflexivity|]. reflexivity.
  - intros error. unfold analyze_stock.
    destruct (get_price_list a) as [|h hs];
      apply advice_never_error_bundle.
Qed.

Lemma analyze_stock_without_history_witness :
  exists adv : Advice,
    analyze_stock sqrt_floor (new_analyzer round_trip) 20.50
    = Ok (AdviceBundle adv) /\
    trend (technical_analysis adv) = insufficient_data.
Proof.
  destruct (proj1 (analyze_stock_without_history sqrt_floor
                     (new_analyzer round_trip) 20.50))
    as (_ & adv & E & Ht & _); [reflexivity|].
  exists adv. split; assumption.
Defined.

(** * Further properties of the code *)

(** ** Order of the ledger *)

Lemma insert_by_ascending {A} (key : A -> datetime) (x : A) (l : list A) :
  ascending key l -> ascending key (insert_by key x l).
Proof.
  unfold ascending. induction 1 as [|y l Hl IH Hy]; simpl.
  - repeat constructor.
  - destruct (Z.leb_spec (key x) (key y)) as [Hxy|Hyx].
    + constructor; [constructor; assumption|].
      constructor; [exact Hxy|].
      eapply List.Forall_impl; [|exact Hy]. simpl. intros z Hz. lia.
    + constructor; [exact IH|].
      apply (Permutation_Forall (insert_by_perm key x l)).
      constructor; [lia | exact Hy].
Qed.

Lemma sort_by_ascending {A} (key : A -> datetime) (l : list A) :
  ascending key (sort_by key l).
Proof.
  induction l as [|x l IH]; simpl.
  - constructor.
  - apply insert_by_ascending. exact IH.
Qed.

Lemma sort_by_fixpoint {A} (key : A -> datetime) (l : list A) :
  ascending key l -> sort_by key l = l.
Proof.
  unfold ascending. induction 1 as [|x l Hl IH Hx]; simpl.
  - reflexivity.
  - rewrite IH. destruct Hx as [|y l Hxy _]; simpl.
    + reflexivity.
    + destruct (Z.leb_spec (key x) (key y)); [reflexivity | lia].
Qed.

Lemma ascending_snoc {A} (key : A -> datetime) (l : list A) (x : A) :
  ascending key l -> Forall (fun y => (key y <= key x)%Z) l ->
  ascending key (l ++ [x]).
Proof.
  unfold ascending. induction 1 as [|y l Hl IH Hy]; simpl; intros Hle.
  - repeat constructor.
  - inversion Hle as [|? ? Hyx Hle']; subst.
    constructor; [apply IH; exact Hle'|].
    apply Forall_app. split; [exact Hy|]. constructor; [exact Hyx|constructor].
Qed.

(** Two ascending lists with the same elements and pairwise distinct keys
    are equal. *)
Lemma ascending_unique {A} (key : A -> datetime) (l1 l2 : list A) :
  Permutation l1 l2 -> List.NoDup (map key l1) ->
  ascending key l1 -> ascending key l2 -> l1 = l2.
Proof.
  unfold ascending. revert l2.
  induction l1 as [|x l1 IH]; intros l2 Hp Hnd H1 H2.
  - apply Permutation_nil in Hp. congruence.
  - destruct l2 as [|y l2].
    { apply Permutation_sym, Permutation_nil in Hp. discriminate. }
    assert (Hnd2 : List.NoDup (map key (y :: l2))).
    { eapply Permutation_NoDup; [apply Permutation_map; exact Hp | exact Hnd]. }
    inversion H1 as [|? ? H1' Hx]; subst.
    inversion H2 as [|? ? H2' Hy]; subst.
    assert (Hxy : x = y).
    { assert (Hin1 : In x (y :: l2)).
      { eapply Permutation_in; [exact Hp | left; reflexivity]. }
      assert (Hin2 : In y (x :: l1)).
      { eapply Permutation_in; [symmetry; exact Hp | left; reflexivity]. }
      destruct Hin1 as [->|Hin1]; [reflexivity|].
      destruct Hin2 as [->|Hin2]; [reflexivity|].
      exfalso.
      pose proof (proj1 (List.Forall_forall _ _) Hy x Hin1) as Hle1.
      pose proof (proj1 (List.Forall_forall _ _) Hx y Hin2) as Hle2.
      simpl in Hle1, Hle2.
      inversion Hnd2 as [|? ? Hnotin _]; subst. apply Hnotin.
      replace (key y) with (key x) by lia.
      apply in_map. exact Hin1. }
    subst y. f_equal. apply IH.
    + eapply Permutation_cons_inv. exact Hp.
    + inversion Hnd; assumption.
    + assumption.
    + assumption.
Qed.

(** X1. After [add_trade] the ledger is in ascending date order, whatever
    its order was before, and it holds exactly the former trades and the
    new one. *)
Theorem add_trade_ledger_sorted (c : StockCalculator) (t : Trade) :
  ascending date (trades (add_trade c t)) /\
  Permutation (t :: trades c) (trades (add_trade c t)).
Proof.
  rewrite add_trade_trades. split.
  - apply sort_by_ascending.
  - rewrite <- sort_by_perm. apply Permutation_cons_append.
Qed.

(** X2. A trade that is not older than any trade of a date-ordered ledger is
    appended at the end: trades of the same day keep their order of entry. *)
Theorem add_trade_appends_latest (c : StockCalculator) (t : Trade) :
  ascending date (trades c) ->
  Forall (fun u => (date u <= date t)%Z) (trades c) ->
  trades (add_trade c t) = trades c ++ [t].
Proof.
  intros Hsorted Hlatest. rewrite add_trade_trades.
  apply sort_by_fixpoint, ascending_snoc; assumption.
Qed.

Lemma add_trade_appends_latest_witness :
  trades (add_trade round_trip (mkTrade 20240120 "sell" 21 100 5 ""))
  = trades round_trip ++ [mkTrade 20240120 "sell" 21 100 5 ""].
Proof.
  apply add_trade_appends_latest.
  - apply (sort_by_ascending date
             [mkTrade 20240101 "buy" 20.00 500 5 "";
              mkTrade 20240115 "sell" 19.88 500 5 "";
              mkTrade 20240120 "buy" 20.14 500 5 ""]).
  - repeat constructor; simpl; lia.
Defined.

Lemma enter_all_code (code : string) (ts : list Trade) :
  stock_code (enter_all code ts) = code.
Proof.
  unfold enter_all.
  assert (H : forall c, stock_code (fold_left add_trade ts c) = stock_code c).
  { induction ts as [|t ts IH]; intros c; simpl; [reflexivity|].
    rewrite IH. reflexivity. }
  apply H.
Qed.

Lemma enter_all_ascending (code : string) (ts : list Trade) :
  ascending date (trades (enter_all code ts)).
Proof.
  unfold enter_all. destruct ts as [|t ts _] using rev_ind.
  - constructor.
  - rewrite fold_left_app. exact (sort_by_ascending date _).
Qed.

Lemma enter_all_shape (code : string) (ts : list Trade) :
  let c := enter_all code ts in
  c = mkCalc code (trades c) (pos_shares (replay (trades c)))
             (pos_cost (replay (trades c)))
             (pos_commission (replay (trades c))).
Proof.
  intros c. pose proof (enter_all_code code ts) as Hcode. fold c in Hcode.
  subst c. unfold enter_all in *. destruct ts as [|t ts _] using rev_ind.
  - reflexivity.
  - rewrite fold_left_app in *. simpl in *.
    unfold add_trade, _recalculate_position in *. simpl in *.
    rewrite Hcode. reflexivity.
Qed.

Lemma enter_all_perm (code : string) (ts : list Trade) :
  Permutation ts (trades (enter_all code ts)).
Proof. apply (add_all_trades_perm ts (new_calculator code)). Qed.

(** X3. When the dates of the trades are pairwise distinct, the calculator
    obtained by entering them through [add_trade] does not depend on the
    order of entry: ledger, shares, cost and commission are the same, also
    in the presence of sells. *)
Theorem entry_order_is_irrelevant (code : string) (ts ts' : list Trade) :
  List.NoDup (map date ts) ->
  Permutation ts ts' ->
  enter_all code ts' = enter_all code ts.
Proof.
  intros Hnd Hperm.
  assert (Htr : trades (enter_all code ts') = trades (enter_all code ts)).
  { apply (ascending_unique date).
    - rewrite <- !enter_all_perm. symmetry. exact Hperm.
    - eapply Permutation_NoDup; [|exact Hnd].
      apply Permutation_map. rewrite <- enter_all_perm. exact Hperm.
    - apply enter_all_ascending.
    - apply enter_all_ascending. }
  rewrite (enter_all_shape code ts'), (enter_all_shape code ts), Htr.
  reflexivity.
Qed.

Lemma entry_order_is_irrelevant_witness :
  enter_all "" (rev mixed_trades) = enter_all "" mixed_trades.
Proof.
  apply entry_order_is_irrelevant.
  - repeat constructor; simpl; intuition lia.
  - apply Permutation_rev.
Defined.

(** ** Sells *)

Lemma replay_snoc (ts : list Trade) (t : Trade) :
  replay (ts ++ [t]) = apply_trade (replay ts) t.
Proof. unfold replay. rewrite fold_left_app. reflexivity. Qed.

Lemma enter_all_position (code : string) (ts : list Trade) :
  let c := enter_all code ts in
  replay (trades c)
  = mkPos (current_shares c) (total_cost c) (total_commission c).
Proof.
  intros c. pose proof (enter_all_shape code ts) as Hshape.
  fold c in Hshape. cbv zeta in Hshape.
  pose proof (f_equal current_shares Hshape) as Hs.
  pose proof (f_equal total_cost Hshape) as Hc.
  pose proof (f_equal total_commission Hshape) as Hm.
  simpl in Hs, Hc, Hm. rewrite Hs, Hc, Hm.
  destruct (replay (trades c)). reflexivity.
Qed.

Lemma latest_trade_position (code : string) (ts : list Trade) (t : Trade) :
  Forall (fun u => (date u <= date t)%Z) ts ->
  let c := enter_all code ts in
  let p := apply_trade (mkPos (current_shares c) (total_cost c)
                              (total_commission c)) t in
  current_shares (add_trade c t) = pos_shares p /\
  total_cost (add_trade c t) = pos_cost p /\
  total_commission (add_trade c t) = pos_commission p.
Proof.
  intros Hlatest c p.
  assert (Hsort : sort_by date (trades c ++ [t]) = trades c ++ [t]).
  { apply sort_by_fixpoint, ascending_snoc.
    - apply enter_all_ascending.
    - eapply Permutation_Forall; [apply enter_all_perm | exact Hlatest]. }
  unfold add_trade, _recalculate_position.
  cbn [current_shares total_cost total_commission trades].
  rewrite Hsort, replay_snoc. subst p c.
  rewrite <- (enter_all_position code ts). repeat split.
Qed.

Lemma of_int_sub (a b : Z) : of_int (a - b) = of_int a - of_int b.
Proof.
  unfold of_int, Z.sub. rewrite inject_Z_plus, inject_Z_opp. reflexivity.
Qed.

Lemma latest_sell_position (code : string) (ts : list Trade) (t : Trade) :
  let c := enter_all code ts in
  is_sell t ->
  Forall (fun u => (date u <= date t)%Z) ts ->
  (0 < current_shares c)%Z ->
  current_shares (add_trade c t) = (current_shares c - shares t)%Z /\
  total_cost (add_trade c t)
  = total_cost c * (1 - sell_ratio t (current_shares c)) /\
  total_commission (add_trade c t) = total_commission c + commission t.
Proof.
  intros c Hsell Hlatest Hheld.
  destruct (latest_trade_position code ts t Hlatest) as (Hs & Hc & Hm).
  fold c in Hs, Hc, Hm. rewrite Hs, Hc, Hm.
  unfold apply_trade. rewrite Hsell.
  cbn [String.eqb Ascii.eqb Bool.eqb pos_shares pos_cost pos_commission].
  destruct (Z.ltb_spec 0 (current_shares c)) as [_|]; [|lia].
  repeat split.
Qed.

(** X4. A sell of fewer shares than are held, entered after every other
    trade, lowers the shares held by its size and adds its commission; it
    never raises a cost that is not negative and never makes it negative,
    so the position stays open with a cost between 0 and the former
    cost. *)
Theorem partial_sell_reduces_cost (code : string) (ts : list Trade)
    (t : Trade) :
  let c := enter_all code ts in
  is_sell t ->
  Forall (fun u => (date u <= date t)%Z) ts ->
  (0 < shares t < current_shares c)%Z ->
  current_shares (add_trade c t) = (current_shares c - shares t)%Z /\
  (0 < current_shares (add_trade c t))%Z /\
  total_commission (add_trade c t) = total_commission c + commission t /\
  (0 <= total_cost c ->
   0 <= total_cost (add_trade c t) <= total_cost c).
Proof.
  intros c Hsell Hlatest Hpart.
  destruct (latest_sell_position code ts t Hsell Hlatest) as (Hs & Hc & Hm);
    [fold c; lia|].
  fold c in Hs, Hc, Hm.
  split; [exact Hs|]. split; [lia|]. split; [exact Hm|].
  intros Hcost. rewrite Hc. unfold sell_ratio.
  assert (Hn : 0 < of_int (current_shares c)) by (apply of_int_pos; lia).
  assert (Hk : 0 < of_int (shares t)) by (apply of_int_pos; lia).
  assert (Hlt : of_int (shares t) < of_int (current_shares c)).
  { assert (0 < of_int (current_shares c - shares t)) by (apply of_int_pos; lia).
    rewrite of_int_sub in H. lra. }
  set (r := of_int (shares t) / of_int (current_shares c)).
  assert (Hr : 0 <= r <= 1).
  { subst r. split.
    - apply Qle_shift_div_l; lra.
    - apply Qle_shift_div_r; lra. }
  assert (H1 : 0 <= total_cost c * (1 - r)) by (apply Qmult_le_0_compat; lra).
  assert (H2 : 0 <= total_cost c * r) by (apply Qmult_le_0_compat; lra).
  split; [exact H1|]. ring_simplify in H2. ring_simplify. lra.
Qed.

Lemma partial_sell_reduces_cost_witness :
  0 <= total_cost (add_trade round_trip (mkTrade 20240201 "sell" 25 200 5 ""))
  <= total_cost round_trip.
Proof.
  apply (partial_sell_reduces_cost "000001"
           [mkTrade 20240101 "buy" 20.00 500 5 "";
            mkTrade 20240115 "sell" 19.88 500 5 "";
            mkTrade 20240120 "buy" 20.14 500 5 ""]
           (mkTrade 20240201 "sell" 25 200 5 "")).
  - reflexivity.
  - repeat constructor; simpl; lia.
  - vm_compute. split; reflexivity.
  - vm_compute. discriminate.
Defined.

(** X5. A sell of exactly the shares held, entered after every other
    trade, closes the position: no share and no cost are left, the average
    cost is 0 and the profit/loss at any price is the zero-filled record,
    while the commissions paid so far stay in [total_commission]. *)
Theorem full_sell_closes_position (code : string) (ts : list Trade)
    (t : Trade) (current_price : Q) :
  let c := enter_all code ts in
  is_sell t ->
  Forall (fun u => (date u <= date t)%Z) ts ->
  (0 < current_shares c)%Z -> shares t = current_shares c ->
  current_shares (add_trade c t) = 0%Z /\
  total_cost (add_trade c t) == 0 /\
  get_average_cost (add_trade c t) = 0 /\
  calculate_profit_loss (add_trade c t) current_price = zero_profit_loss /\
  total_commission (add_trade c t) == total_commission c + commission t.
Proof.
  intros c Hsell Hlatest Hheld Hall.
  destruct (latest_sell_position code ts t Hsell Hlatest) as (Hs & Hc & Hm);
    [exact Hheld|].
  fold c in Hs, Hc, Hm.
  assert (Hzero : current_shares (add_trade c t) = 0%Z) by lia.
  split; [exact Hzero|]. split; [|split; [|split]].
  - rewrite Hc. unfold sell_ratio. rewrite Hall.
    assert (Hn : 0 < of_int (current_shares c)) by (apply of_int_pos; lia).
    field. lra.
  - unfold get_average_cost. rewrite Hzero. reflexivity.
  - apply no_position_profit_loss. exact Hzero.
  - rewrite Hm. reflexivity.
Qed.

Lemma full_sell_closes_position_witness :
  calculate_profit_loss
    (add_trade round_trip (mkTrade 20240201 "sell" 25 500 5 "")) 30
  = zero_profit_loss.
Proof.
  apply (full_sell_closes_position "000001"
           [mkTrade 20240101 "buy" 20.00 500 5 "";
            mkTrade 20240115 "sell" 19.88 500 5 "";
            mkTrade 20240120 "buy" 20.14 500 5 ""]
           (mkTrade 20240201 "sell" 25 500 5 "") 30).
  - reflexivity.
  - repeat constructor; simpl; lia.
  - vm_compute. reflexivity.
  - reflexivity.
Defined.

Lemma sells_without_shares_ignored (sells : list Trade) (p : Position) :
  (pos_shares p <= 0)%Z -> Forall is_sell sells ->
  fold_left apply_trade sells p = p.
Proof.
  intros Hp Hall. induction Hall as [|t sells Ht _ IH]; simpl.
  - reflexivity.
  - rewrite apply_trade_ignored; [exact IH|].
    unfold takes_effect. rewrite Ht. simpl. apply Z.ltb_ge. exact Hp.
Qed.

(** X6. Once the shares held are zero or negative, every further sell is
    ignored: replaying a ledger followed by any number of sells gives the
    position of the ledger alone, so an over-sold position stays as it is
    until the next buy. *)
Theorem sells_after_closed_position_ignored (ts sells : list Trade) :
  (pos_shares (replay ts) <= 0)%Z ->
  Forall is_sell sells ->
  replay (ts ++ sells) = replay ts.
Proof.
  intros Hclosed Hsells. unfold replay. rewrite fold_left_app.
  apply sells_without_shares_ignored; assumption.
Qed.

Lemma sells_after_closed_position_ignored_witness :
  replay ((oversell_ledger ++ [oversell_trade]) ++ [ignored_sell; oversell_trade])
  = replay (oversell_ledger ++ [oversell_trade]).
Proof.
  apply sells_after_closed_position_ignored.
  - vm_compute. discriminate.
  - repeat constructor.
Defined.

Lemma replay_known_from (ts : list Trade) (p : Position) :
  fold_left apply_trade ts p
  = fold_left apply_trade (List.filter known_action ts) p.
Proof.
  revert p. induction ts as [|t ts IH]; intros p; simpl.
  - reflexivity.
  - destruct (known_action t) eqn:Hk; simpl.
    + apply IH.
    + rewrite apply_trade_ignored; [apply IH|].
      unfold known_action in Hk. unfold takes_effect.
      apply orb_false_iff in Hk as [-> ->]. reflexivity.
Qed.

(** X7. A trade whose action is neither "buy" nor "sell" (the comparison
    is exact, so also "BUY" or "Sell") never changes the position: the
    replay of a ledger is the replay of its buys and sells. *)
Theorem unknown_actions_ignored (ts : list Trade) :
  replay ts = replay (List.filter known_action ts).
Proof. apply replay_known_from. Qed.

(** ** Profit and loss *)



(** ** Portfolio *)

Lemma dict_get_set_same {V} (d : Dict.t V) (k : string) (v : V) :
  Dict.get (Dict.set d k v) k = Some v.
Proof.
  induction d as [|[k' v'] d IH]; simpl.
  - rewrite String.eqb_refl. reflexivity.
  - destruct (String.eqb k k') eqn:E; simpl.
    + rewrite String.eqb_refl. reflexivity.
    + rewrite E. exact IH.
Qed.

Lemma dict_get_set_other {V} (d : Dict.t V) (k k' : string) (v : V) :
  k' <> k -> Dict.get (Dict.set d k v) k' = Dict.get d k'.
Proof.
  intros Hne. induction d as [|[k0 v0] d IH]; simpl.
  - destruct (String.eqb_spec k' k); [contradiction | reflexivity].
  - destruct (String.eqb_spec k k0) as [->|Hk]; simpl.
    + destruct (String.eqb_spec k' k0); [contradiction | reflexivity].
    + rewrite IH. reflexivity.
Qed.

Lemma dict_get_None {V} (d : Dict.t V) (k : string) :
  Dict.get d k = None <-> ~ In k (Dict.keys d).
Proof.
  induction d as [|[k' v'] d IH]; simpl.
  - tauto.
  - destruct (String.eqb_spec k k') as [->|Hne].
    + split; [discriminate | intros H; exfalso; apply H; left; reflexivity].
    + rewrite IH. split.
      * intros H [E|Hin]; [congruence | contradiction].
      * intros H Hin. apply H. right. exact Hin.
Qed.

(** X9. [add_stock] followed by [get_stock] finds the calculator that
    [add_stock] returned.  A code that is already present gets its existing
    calculator and the portfolio is unchanged; a new code gets an empty
    calculator; the calculators of the other codes are not affected. *)
Theorem add_stock_then_get_stock (p : StockPortfolio) (code : string) :
  let p' := fst (add_stock p code) in
  let c := snd (add_stock p code) in
  get_stock p' code = Some c /\
  (forall c0, get_stock p code = Some c0 -> p' = p /\ c = c0) /\
  (get_stock p code = None -> c = new_calculator code) /\
  (forall other, other <> code -> get_stock p' other = get_stock p other).
Proof.
  unfold add_stock, get_stock.
  destruct (Dict.get (stocks p) code) as [c0|] eqn:E; simpl.
  - split; [exact E|]. split; [|split].
    + intros c1 [= <-]. split; reflexivity.
    + discriminate.
    + reflexivity.
  - split; [apply dict_get_set_same|]. split; [|split].
    + discriminate.
    + reflexivity.
    + intros other Hne. apply dict_get_set_other. exact Hne.
Qed.

Lemma add_stock_then_get_stock_witness :
  get_stock (fst (add_stock two_stock_portfolio "C")) "A"
  = get_stock two_stock_portfolio "A" /\
  snd (add_stock two_stock_portfolio "C") = new_calculator "C".
Proof.
  destruct (add_stock_then_get_stock two_stock_portfolio "C")
    as (_ & _ & Hnew & Hother).
  split.
  - apply Hother. discriminate.
  - apply Hnew. reflexivity.
Defined.

(** X10. [add_stock] keeps the codes of the portfolio pairwise distinct and
    in order of insertion: a new code is appended after the existing ones,
    a known code changes nothing. *)
Theorem add_stock_keeps_codes_distinct (p : StockPortfolio) (code : string) :
  let p' := fst (add_stock p code) in
  (In code (Dict.keys (stocks p)) ->
   Dict.keys (stocks p') = Dict.keys (stocks p)) /\
  (~ In code (Dict.keys (stocks p)) ->
   Dict.keys (stocks p') = Dict.keys (stocks p) ++ [code]) /\
  (List.NoDup (Dict.keys (stocks p)) -> List.NoDup (Dict.keys (stocks p'))).
Proof.
  unfold add_stock.
  destruct (Dict.get (stocks p) code) as [c0|] eqn:E; simpl.
  - split; [reflexivity|]. split; [|auto].
    intros Hfresh. apply dict_get_None in Hfresh. congruence.
  - pose proof (proj1 (dict_get_None _ _) E) as Hfresh.
    rewrite (dict_set_fresh _ _ _ Hfresh). unfold Dict.keys in *.
    rewrite map_app. simpl. split; [contradiction|]. split; [reflexivity|].
    intros Hnd. eapply Permutation_NoDup; [apply Permutation_cons_append|].
    constructor; assumption.
Qed.

Lemma add_stock_keeps_codes_distinct_witness :
  List.NoDup (Dict.keys (stocks (fst (add_stock two_stock_portfolio "C")))).
Proof.
  apply (proj2 (proj2 (add_stock_keeps_codes_distinct two_stock_portfolio "C"))).
  repeat constructor; simpl; intuition discriminate.
Defined.

Lemma Qgtb_proper (x y : Q) : x == y -> Qgtb x 0 = Qgtb y 0.
Proof.
  intros E. destruct (Qgtb x 0) eqn:Hx; destruct (Qgtb y 0) eqn:Hy;
    try reflexivity.
  - apply Qgtb_gt in Hx. apply Qgtb_le in Hy. lra.
  - apply Qgtb_le in Hx. apply Qgtb_gt in Hy. lra.
Qed.

(** X11. Registering an instrument leaves the portfolio summary as it was:
    the totals and the overall rate after [add_stock] are those before,
    since an instrument without position counts as zero. *)
Theorem add_stock_keeps_summary (p : StockPortfolio) (code : string)
    (current_prices : gmap string Q) :
  let s := get_portfolio_summary p current_prices in
  let s' := get_portfolio_summary (fst (add_stock p code)) current_prices in
  sum_total_investment s' == sum_total_investment s /\
  sum_total_market_value s' == sum_total_market_value s /\
  sum_total_profit_loss s' == sum_total_profit_loss s /\
  sum_total_profit_loss_rate s' == sum_total_profit_loss_rate s.
Proof.
  unfold add_stock.
  destruct (Dict.get (stocks p) code) as [c0|] eqn:E; simpl.
  { repeat split; reflexivity. }
  apply dict_get_None in E. rewrite (dict_set_fresh _ _ _ E).
  unfold get_portfolio_summary. simpl. rewrite fold_left_app. simpl.
  set (acc := fold_left (summary_step current_prices) (stocks p)
                        (mkTotals 0 0 0 [])).
  assert (Hi : acc_investment acc + 0 == acc_investment acc) by lra.
  assert (Hp : acc_profit_loss acc + 0 == acc_profit_loss acc) by lra.
  split; [exact Hi|]. split; [lra|]. split; [exact Hp|].
  rewrite (Qgtb_proper _ _ Hi).
  destruct (Qgtb (acc_investment acc) 0) eqn:Hpos; [|reflexivity].
  apply Qgtb_gt in Hpos. rewrite Hi, Hp. reflexivity.
Qed.

(** ** Moving average *)

Lemma slice_length {A} (l : list A) (a b : Z) :
  (0 <= a <= b)%Z -> (b <= Py.len l)%Z ->
  Py.len (Py.slice l a b) = (b - a)%Z.
Proof.
  intros Hab Hb. unfold Py.slice, Py.clip, Py.len in *.
  destruct (Z.ltb_spec a 0) as [|_]; [lia|].
  destruct (Z.ltb_spec b 0) as [|_]; [lia|].
  rewrite length_take, length_drop. lia.
Qed.

(** X12. For a positive period [calculate_sma] never raises and returns
    len - period + 1 averages, none when the prices are fewer than the
    period. *)
Theorem sma_length (prices : list Q) (period : Z) :
  (0 < period)%Z ->
  exists vs, calculate_sma prices period = Ok vs /\
    Py.len vs = Z.max 0 (Py.len prices - period + 1).
Proof.
  intros Hp.
  destruct (calculate_sma_total prices period) as (vs & Evs & Hlen); [lia|].
  exists vs. split; [exact Evs|]. unfold Py.len in *. rewrite Hlen.
  destruct (Z.ltb_spec (Z.of_nat (length prices)) period); lia.
Qed.

Lemma sma_length_witness :
  exists vs, calculate_sma rising_prices 3 = Ok vs /\ Py.len vs = 3%Z.
Proof. apply (sma_length rising_prices 3). lia. Defined.

(** X13. With the period 0 [calculate_sma] raises [ZeroDivisionError] on
    every price list, the empty one included: the length guard lets the
    loop start at index -1. *)
Theorem sma_zero_period_raises (prices : list Q) :
  calculate_sma prices 0 = Raise ZeroDivisionError.
Proof.
  unfold calculate_sma.
  destruct (Z.ltb_spec (Py.len prices) 0) as [H|_].
  { unfold Py.len in H. lia. }
  rewrite range_cons by (unfold Py.len; lia).
  apply mapM_Raise. reflexivity.
Qed.

Lemma index_last_Forall {A} (P : A -> Prop) (l : list A) :
  l <> [] -> Forall P l -> exists y, Py.index l (-1) = Ok y /\ P y.
Proof.
  intros Hne Hl. destruct (index_from_end l (-1)) as (y & Hy & Hlook).
  - destruct l; [congruence|]. unfold Py.len. simpl. lia.
  - exists y. split; [exact Hy|]. exact (Forall_lookup_1 _ _ _ _ Hl Hlook).
Qed.

(** ** Maximum drawdown *)

Lemma decline_mono (x y q : Q) :
  0 < x -> x <= y -> 0 < q -> decline x q <= decline y q.
Proof.
  intros Hx Hxy Hq. unfold decline.
  apply Qle_shift_div_r; [exact Hx|].
  assert (E : (y - q) / y * x == ((y - q) * x) / y) by (field; lra).
  rewrite E. apply Qle_shift_div_l; [lra|].
  assert (H : 0 <= q * (y - x)) by (apply Qmult_le_0_compat; lra).
  ring_simplify. ring_simplify in H. lra.
Qed.

Lemma decline_bounds (peak q : Q) :
  0 < q -> q <= peak -> 0 <= decline peak q < 1.
Proof.
  intros Hq Hle. unfold decline. split.
  - apply Qle_shift_div_l; lra.
  - apply Qlt_shift_div_r; lra.
Qed.

Lemma decline_nonpos (x q : Q) : 0 < x -> x <= q -> decline x q <= 0.
Proof.
  intros Hx Hle. unfold decline. apply Qle_shift_div_r; lra.
Qed.

Lemma drawdown_step_positive (peak m q : Q) :
  0 < peak -> 0 <= m < 1 -> 0 < q ->
  exists peak' m',
    drawdown_step (peak, m) q = Ok (peak', m') /\
    0 < peak' /\ peak <= peak' /\ q <= peak' /\ (peak' = peak \/ peak' = q) /\
    m <= m' < 1 /\ decline peak' q <= m' /\
    (m' = m \/ (peak' = peak /\ m' = decline peak q)).
Proof.
  intros Hpeak Hm Hq. unfold drawdown_step.
  destruct (Qgtb q peak) eqn:Hgt.
  - apply Qgtb_gt in Hgt. exists q, m. split; [reflexivity|].
    repeat split; try lra; auto.
    pose proof (decline_nonpos q q Hq). lra.
  - apply Qgtb_le in Hgt. rewrite div_Ok by lra. simpl.
    pose proof (decline_bounds peak q Hq Hgt) as Hdd.
    fold (decline peak q).
    destruct (Qgtb (decline peak q) m) eqn:Hmax.
    + apply Qgtb_gt in Hmax. exists peak, (decline peak q).
      split; [reflexivity|]. repeat split; try lra; auto.
    + apply Qgtb_le in Hmax. exists peak, m.
      split; [reflexivity|]. repeat split; try lra; auto.
Qed.

Lemma drawdown_run (l : list Q) (peak m : Q) :
  0 < peak -> 0 <= m < 1 -> Forall (fun q => 0 < q) l ->
  exists peak' m',
    for_each drawdown_step (peak, m) l = Ok (peak', m') /\
    m <= m' < 1 /\
    (forall (j : nat) (q x : Q),
       l !! j = Some q -> 0 < x ->
       x <= peak \/ (exists i, (i <= j)%nat /\ l !! i = Some x) ->
       decline x q <= m') /\
    (m' = m \/
     exists (j : nat) (q x : Q),
       l !! j = Some q /\
       (x = peak \/ exists i, (i <= j)%nat /\ l !! i = Some x) /\
       m' = decline x q).
Proof.
  intros Hpeak Hm Hall. revert peak m Hpeak Hm.
  induction Hall as [|q0 l Hq0 Hall IH]; intros peak m Hpeak Hm.
  - exists peak, m. split; [reflexivity|]. split; [lra|]. split.
    + intros j q x Hj. destruct j; discriminate Hj.
    + left. reflexivity.
  - destruct (drawdown_step_positive peak m q0 Hpeak Hm Hq0)
      as (peak1 & m1 & Estep & Hpos1 & Hge1 & Hq1 & Hwhich & Hm1 & Hdd1 & Hatt1).
    destruct (IH peak1 m1 Hpos1) as (peak' & m' & Erun & Hm' & Hdom & Hatt);
      [lra|].
    exists peak', m'. split; [cbn [for_each]; rewrite Estep; exact Erun|].
    split; [lra|]. split.
    + intros j q x Hj Hx Hsrc. destruct j as [|j]; simpl in Hj.
      * injection Hj as <-.
        assert (Hle : x <= peak1).
        { destruct Hsrc as [Hle|(i & Hi & Hlook)]; [lra|].
          assert (i = 0)%nat by lia. subst i. simpl in Hlook.
          injection Hlook as <-. exact Hq1. }
        pose proof (decline_mono x peak1 q0 Hx Hle Hq0). lra.
      * apply (Hdom j q x Hj Hx).
        destruct Hsrc as [Hle|(i & Hi & Hlook)]; [left; lra|].
        destruct i as [|i]; simpl in Hlook.
        -- injection Hlook as <-. left. exact Hq1.
        -- right. exists i. split; [lia | exact Hlook].
    + destruct Hatt as [->|(j & q & x & Hj & Hsrc & ->)].
      * destruct Hatt1 as [->|[-> ->]]; [left; reflexivity|].
        right. exists 0%nat, q0, peak. split; [reflexivity|].
        split; [left; reflexivity | reflexivity].
      * right. exists (S j), q, x. split; [exact Hj|]. split; [|reflexivity].
        destruct Hsrc as [->|(i & Hi & Hlook)].
        -- destruct Hwhich as [->| ->]; [left; reflexivity|].
           right. exists 0%nat. split; [lia | reflexivity].
        -- right. exists (S i). split; [lia | exact Hlook].
Qed.

Lemma calculate_max_drawdown_spec (prices : list Q) :
  Forall (fun q => 0 < q) prices ->
  exists d, calculate_max_drawdown prices = Ok d /\
    0 <= d < 1 /\
    (forall (i j : nat) (x q : Q),
       (i <= j)%nat -> prices !! i = Some x -> prices !! j = Some q ->
       decline x q <= d) /\
    (d = 0 \/
     exists (i j : nat) (x q : Q),
       (i <= j)%nat /\ prices !! i = Some x /\ prices !! j = Some q /\
       d = decline x q).
Proof.
  intros Hpos. unfold calculate_max_drawdown.
  destruct (Z.ltb_spec (Py.len prices) 2) as [Hshort|Hlong].
  - exists 0. split; [reflexivity|]. split; [lra|]. split; [|left; reflexivity].
    intros i j x q Hij Hi Hj.
    assert (i = 0 /\ j = 0)%nat as [-> ->].
    { apply lookup_lt_Some in Hi, Hj. unfold Py.len in Hshort. lia. }
    assert (q = x) by congruence. subst q.
    apply decline_nonpos; [|lra].
    exact (Forall_lookup_1 _ _ _ _ Hpos Hi).
  - destruct (index_in_range prices 0) as (peak & Epeak & Lpeak); [lia|].
    rewrite Epeak. simpl. simpl in Lpeak.
    assert (Hpeak : 0 < peak) by exact (Forall_lookup_1 _ _ _ _ Hpos Lpeak).
    destruct (drawdown_run prices peak 0 Hpeak) as (peak' & d & Erun & Hd & Hdom & Hatt);
      [lra | exact Hpos |].
    rewrite Erun. simpl. exists d. split; [reflexivity|]. split; [lra|]. split.
    + intros i j x q Hij Hi Hj. apply (Hdom j q x Hj).
      * exact (Forall_lookup_1 _ _ _ _ Hpos Hi).
      * right. exists i. split; assumption.
    + destruct Hatt as [->|(j & q & x & Hj & Hsrc & ->)]; [left; reflexivity|].
      right. destruct Hsrc as [->|(i & Hi & Hlook)].
      * exists 0%nat, j, peak, q. repeat split; [lia | exact Lpeak | exact Hj].
      * exists i, j, x, q. repeat split; assumption.
Qed.



Lemma non_decreasing_le (prices : list Q) (i j : nat) (x y : Q) :
  non_decreasing prices -> (i <= j)%nat ->
  prices !! i = Some x -> prices !! j = Some y -> x <= y.
Proof.
  intros Hmono Hij Hi. revert y. induction Hij as [|j Hij IH]; intros y Hj.
  - assert (y = x) by congruence. subst. lra.
  - destruct (lookup_lt_is_Some_2 prices j) as [z Hz].
    { apply lookup_lt_Some in Hj. lia. }
    pose proof (IH z Hz). pose proof (Hmono j z y Hz Hj). lra.
Qed.

(** X16. On positive prices that never decrease the maximum drawdown is 0. *)
Theorem max_drawdown_of_rising_prices (prices : list Q) :
  Forall (fun q => 0 < q) prices -> non_decreasing prices ->
  exists d, calculate_max_drawdown prices = Ok d /\ d == 0.
Proof.
  intros Hpos Hmono.
  destruct (calculate_max_drawdown_spec prices Hpos) as (d & Ed & Hd & _ & Hatt).
  exists d. split; [exact Ed|].
  destruct Hatt as [->|(i & j & x & q & Hij & Hi & Hj & ->)]; [reflexivity|].
  pose proof (non_decreasing_le prices i j x q Hmono Hij Hi Hj) as Hle.
  pose proof (decline_nonpos x q (Forall_lookup_1 _ _ _ _ Hpos Hi) Hle).
  lra.
Qed.

Lemma max_drawdown_of_rising_prices_witness :
  exists d, calculate_max_drawdown rising_prices = Ok d /\ d == 0.
Proof.
  apply max_drawdown_of_rising_prices.
  - repeat constructor.
  - apply non_decreasingb_sound. reflexivity.
Defined.

(** X17. When the first of two or more prices is 0,
    [calculate_max_drawdown] raises [ZeroDivisionError]: the first price is
    the initial peak and the first decline divides by it. *)
Theorem max_drawdown_zero_first_price (p0 p1 : Q) (rest : list Q) :
  p0 == 0 ->
  calculate_max_drawdown (p0 :: p1 :: rest) = Raise ZeroDivisionError.
Proof.
  intros Hzero. unfold calculate_max_drawdown.
  destruct (Z.ltb_spec (Py.len (p0 :: p1 :: rest)) 2) as [H|_].
  { unfold Py.len in H. simpl in H. lia. }
  destruct (index_in_range (p0 :: p1 :: rest) 0) as (peak & Epeak & Lpeak).
  { unfold Py.len. simpl. lia. }
  simpl in Lpeak. injection Lpeak as <-. rewrite Epeak.
  assert (Estep : drawdown_step (p0, 0) p0 = Raise ZeroDivisionError).
  { unfold drawdown_step. rewrite (proj2 (Qgtb_le p0 p0)) by lra.
    unfold Py.div. apply Qeq_bool_iff in Hzero. rewrite Hzero. reflexivity. }
  cbn [mbind result_bind for_each]. rewrite Estep. reflexivity.
Qed.

Lemma max_drawdown_zero_first_price_witness :
  calculate_max_drawdown [0; 5; 3] = Raise ZeroDivisionError.
Proof. apply max_drawdown_zero_first_price. reflexivity. Defined.

(** ** Volatility of a series with a zero price *)

Lemma mapM_raise_first {A B} (f : A -> result B) (e : exn) (l : list A) :
  Forall (fun x => (exists y, f x = Ok y) \/ f x = Raise e) l ->
  Exists (fun x => f x = Raise e) l ->
  mapM f l = Raise e.
Proof.
  induction 1 as [|x l Hx Hl IH]; intros Hex.
  - inversion Hex.
  - destruct Hx as [(y & Hy)|Hx]; [|apply mapM_Raise; exact Hx].
    inversion Hex as [? ? Hhere|? ? Hlater]; subst; [congruence|].
    simpl. rewrite Hy. simpl. rewrite (IH Hlater). reflexivity.
Qed.

Lemma period_return_cases (prices : list Q) (i : Z) :
  (1 <= i < Py.len prices)%Z ->
  exists a b, prices !! Z.to_nat i = Some a /\
    prices !! Z.to_nat (i - 1) = Some b /\
    period_return prices i = Py.div (a - b) b.
Proof.
  intros Hi. unfold period_return.
  destruct (index_in_range prices i) as (a & Ha & La); [lia|].
  destruct (index_in_range prices (i - 1)) as (b & Hb & Lb); [lia|].
  exists a, b. rewrite Ha. simpl. rewrite Hb. simpl. auto.
Qed.

(** X18. [calculate_volatility] raises [ZeroDivisionError] as soon as a
    price other than the last one is 0: the return of the next period
    divides by it. *)
Theorem volatility_zero_price_raises (sqrt : Q -> Q) (prices : list Q)
    (i : nat) (x : Q) :
  prices !! i = Some x -> x == 0 -> (S i < length prices)%nat ->
  calculate_volatility sqrt prices = Raise ZeroDivisionError.
Proof.
  intros Hi Hx Hnext. unfold calculate_volatility.
  destruct (Z.ltb_spec (Py.len prices) 2) as [H|_].
  { unfold Py.len in H. lia. }
  rewrite (mapM_raise_first (period_return prices) ZeroDivisionError);
    [reflexivity | |].
  - apply List.Forall_forall. intros j Hj. apply range_In in Hj.
    destruct (period_return_cases prices j Hj) as (a & b & _ & _ & ->).
    unfold Py.div. destruct (Qeq_bool b 0); eauto.
  - apply List.Exists_exists. exists (Z.of_nat (S i)). split.
    + apply range_In. unfold Py.len. lia.
    + destruct (period_return_cases prices (Z.of_nat (S i)))
        as (a & b & _ & Hb & ->); [unfold Py.len; lia|].
      replace (Z.to_nat (Z.of_nat (S i) - 1)) with i in Hb by lia.
      assert (b = x) by congruence. subst b.
      unfold Py.div. apply Qeq_bool_iff in Hx. rewrite Hx. reflexivity.
Qed.

Lemma volatility_zero_price_raises_witness :
  calculate_volatility sqrt_floor [10; 0; 12; 11] = Raise ZeroDivisionError.
Proof.
  apply (volatility_zero_price_raises sqrt_floor [10; 0; 12; 11] 1 0).
  - reflexivity.
  - reflexivity.
  - simpl. lia.
Defined.

(** ** Oscillator signal *)

(** X19. On 15 or more prices that never decrease, flat series included,
    every window has no loss, the oscillator is 100 and
    [analyze_rsi_signal] answers "超买信号，考虑卖出" (overbought); on
    fewer than 15 prices it answers "数据不足". *)
Theorem rsi_signal_of_rising_prices (prices : list Q) :
  ((Py.len prices < 15)%Z -> analyze_rsi_signal prices = Ok insufficient_data) /\
  ((15 <= Py.len prices)%Z -> non_decreasing prices ->
   analyze_rsi_signal prices = Ok rsi_overbought).
Proof.
  unfold analyze_rsi_signal. split.
  - intros Hshort. unfold calculate_rsi.
    destruct (Z.ltb_spec (Py.len prices) (14 + 1)) as [_|]; [|lia].
    reflexivity.
  - intros Hlong Hmono.
    destruct (calculate_rsi_total prices 14) as (vs & Evs & _ & Hlen & Hsat);
      [lia|].
    destruct (Z.ltb_spec (Py.len prices) (14 + 1)) as [|_]; [lia|].
    rewrite Evs. simpl.
    destruct vs as [|v vs]; [simpl in Hlen; lia|].
    destruct (index_last_Forall (fun v => v = 100) (v :: vs))
      as (cur & Ecur & ->); [discriminate | exact (Hsat Hmono) |].
    rewrite Ecur. reflexivity.
Qed.

Lemma rsi_signal_of_rising_prices_witness :
  analyze_rsi_signal [10; 11] = Ok insufficient_data /\
  analyze_rsi_signal flat_prices = Ok rsi_overbought.
Proof.
  split.
  - apply (proj1 (rsi_signal_of_rising_prices [10; 11])). reflexivity.
  - apply (proj2 (rsi_signal_of_rising_prices flat_prices)).
    + vm_compute. discriminate.
    + apply non_decreasingb_sound. reflexivity.
Defined.

Lemma strictly_decreasingb_sound (prices : list Q) :
  strictly_decreasingb prices = true -> strictly_decreasing prices.
Proof.
  induction prices as [|a [|b rest] IH]; intros Hc i x y Hx Hy.
  - destruct i; discriminate.
  - destruct i; discriminate.
  - simpl in Hc. apply andb_true_iff in Hc as [Hab Hrest].
    destruct i as [|i].
    + simpl in Hx, Hy. injection Hx as <-. injection Hy as <-.
      apply Qltb_lt. exact Hab.
    + apply (IH Hrest i x y); assumption.
Qed.

Lemma sum_pos (l : list Q) :
  Forall (fun x => 0 < x) l -> l <> [] -> 0 < sum l.
Proof.
  intros Hl Hne. destruct Hl as [|x l Hx Hl]; [congruence|].
  rewrite sum_cons.
  assert (0 <= sum l); [|lra].
  apply sum_nonneg. eapply List.Forall_impl; [|exact Hl].
  simpl. intros y Hy. lra.
Qed.

Lemma gain_loss_falling (prices : list Q) (i : Z) :
  strictly_decreasing prices -> (1 <= i < Py.len prices)%Z ->
  exists g l, gain_loss prices i = Ok (g, l) /\ g == 0 /\ 0 < l.
Proof.
  intros Hfall Hi. unfold gain_loss.
  destruct (index_in_range prices i) as (a & Ha & La); [lia|].
  destruct (index_in_range prices (i - 1)) as (b & Hb & Lb); [lia|].
  rewrite Ha. simpl. rewrite Hb. simpl.
  assert (Hab : a < b).
  { apply (Hfall (Z.to_nat (i - 1))); [exact Lb|].
    replace (S (Z.to_nat (i - 1))) with (Z.to_nat i) by lia. exact La. }
  eexists _, _. split; [reflexivity|]. unfold Py.max. split.
  - rewrite (proj2 (Qgtb_gt 0 (a - b))) by lra. reflexivity.
  - rewrite (proj2 (Qgtb_le 0 (- (a - b)))) by lra. lra.
Qed.

Lemma rsi_value_no_gain (avg_gain avg_loss : Q) :
  avg_gain == 0 -> 0 < avg_loss ->
  exists v, rsi_value avg_gain avg_loss = Ok v /\ v == 0.
Proof.
  intros Hg Hl. unfold rsi_value.
  destruct (Qeq_bool avg_loss 0) eqn:E.
  { apply Qeq_bool_iff in E. lra. }
  rewrite div_Ok by lra. simpl.
  assert (Hrs : avg_gain / avg_loss == 0) by (rewrite Hg; field; lra).
  rewrite div_Ok by lra. simpl.
  eexists. split; [reflexivity|]. rewrite Hrs. field.
Qed.

Lemma calculate_rsi_falling (prices : list Q) (period : Z) :
  (0 < period)%Z -> (period + 1 <= Py.len prices)%Z ->
  strictly_decreasing prices ->
  exists vs, calculate_rsi prices period = Ok vs /\
    Py.len vs = (Py.len prices - period)%Z /\
    Forall (fun v => v == 0) vs.
Proof.
  intros Hp Hlong Hfall. unfold calculate_rsi.
  destruct (Z.ltb_spec (Py.len prices) (period + 1)) as [|_]; [lia|].
  destruct (mapM_total (gain_loss prices)
              (fun gl => fst gl == 0 /\ 0 < snd gl)
              (Py.range 1 (Py.len prices))) as (gl & Hgl & Pgl & Lgl).
  { apply List.Forall_forall. intros i Hi. apply range_In in Hi.
    destruct (gain_loss_falling prices i Hfall Hi) as (g & l & E & Hg & Hl).
    exists (g, l). auto. }
  rewrite Hgl. simpl. rewrite range_length in Lgl.
  assert (Hgains : Forall (fun x => x == 0) (map fst gl)).
  { apply List.Forall_map. eapply List.Forall_impl; [|exact Pgl]. simpl. tauto. }
  assert (Hlosses : Forall (fun x => 0 < x) (map snd gl)).
  { apply List.Forall_map. eapply List.Forall_impl; [|exact Pgl]. simpl. tauto. }
  match goal with |- context [mapM ?f ?l] =>
    destruct (mapM_total f (fun v => v == 0) l) as (vs & Hvs & Pvs & Hlen)
  end.
  { apply List.Forall_forall. intros i Hi. apply range_In in Hi.
    pose proof (of_int_pos period Hp) as Hn.
    rewrite !div_Ok by lra. simpl.
    apply rsi_value_no_gain.
    - rewrite (sum_zero _ (slice_Forall _ _ _ _ Hgains)). field. lra.
    - apply Qlt_shift_div_l; [exact Hn|].
      assert (0 < sum (Py.slice (map snd gl) (i - period) i)); [|lra].
      apply sum_pos; [apply slice_Forall, Hlosses|].
      intros Hnil.
      assert (Hl : Py.len (Py.slice (map snd gl) (i - period) i) = period).
      { rewrite slice_length; [lia | lia |].
        unfold Py.len in *. rewrite length_map. lia. }
      rewrite Hnil in Hl. unfold Py.len in Hl. simpl in Hl. lia. }
  exists vs. split; [exact Hvs|]. split; [|exact Pvs].
  rewrite range_length in Hlen. unfold Py.len in *. lia.
Qed.

(** X20. On 15 or more prices that fall at every step every window has no
    gain, the oscillator is 0 and [analyze_rsi_signal] answers
    "超卖信号，考虑买入" (oversold). *)
Theorem rsi_signal_of_falling_prices (prices : list Q) :
  (15 <= Py.len prices)%Z -> strictly_decreasing prices ->
  (exists vs, calculate_rsi prices 14 = Ok vs /\
     Py.len vs = (Py.len prices - 14)%Z /\ Forall (fun v => v == 0) vs) /\
  analyze_rsi_signal prices = Ok rsi_oversold.
Proof.
  intros Hlong Hfall.
  destruct (calculate_rsi_falling prices 14) as (vs & Evs & Hlen & Hzero);
    [lia | lia | exact Hfall |].
  split; [exists vs; auto|].
  unfold analyze_rsi_signal. rewrite Evs. simpl.
  destruct vs as [|v vs]; [unfold Py.len in *; simpl in Hlen; lia|].
  destruct (index_last_Forall (fun v => v == 0) (v :: vs))
    as (cur & Ecur & Hcur); [discriminate | exact Hzero |].
  rewrite Ecur. simpl.
  rewrite (proj2 (Qgtb_le cur 70)) by lra.
  rewrite (proj2 (Qltb_lt cur 30)) by lra. reflexivity.
Qed.

Lemma rsi_signal_of_falling_prices_witness :
  analyze_rsi_signal falling_prices = Ok rsi_oversold.
Proof.
  apply rsi_signal_of_falling_prices.
  - vm_compute. discriminate.
  - apply strictly_decreasingb_sound. reflexivity.
Defined.

(** ** Advice *)

Lemma trend_signal_texts (a b c d : Q) :
  In (trend_signal a b c d) [golden_cross; death_cross; bullish; bearish].
Proof.
  unfold trend_signal.
  destruct (Qgtb a b && Qle_bool c d); [simpl; auto|].
  destruct (Qltb a b && Qgeb c d); [simpl; auto|].
  destruct (Qgtb a b); simpl; auto.
Qed.

Lemma analyze_trend_texts (prices : list Q) (short_period long_period : Z) :
  short_period <> 0%Z -> long_period <> 0%Z ->
  exists s, analyze_trend prices short_period long_period = Ok s /\
    In s trend_texts.
Proof.
  intros Hs Hl. unfold analyze_trend.
  destruct (Py.len prices <? long_period)%Z.
  { eexists. split; [reflexivity | left; reflexivity]. }
  destruct (calculate_sma_total prices short_period Hs) as (ss & Ess & _).
  destruct (calculate_sma_total prices long_period Hl) as (ls & Els & _).
  rewrite Ess. simpl. rewrite Els. simpl.
  destruct ss as [|s0 ss];
    [eexists; split; [reflexivity | left; reflexivity]|].
  destruct ls as [|l0 ls];
    [eexists; split; [reflexivity | left; reflexivity]|].
  destruct (index_last_total s0 ss) as (cs & Ecs).
  destruct (index_last_total l0 ls) as (cl & Ecl).
  rewrite Ecs. simpl. rewrite Ecl. simpl.
  destruct (previous_total (s0 :: ss) cs) as (ps & Eps).
  destruct (previous_total (l0 :: ls) cl) as (pl & Epl).
  rewrite Eps. simpl. rewrite Epl. simpl.
  eexists. split; [reflexivity|]. right. apply trend_signal_texts.
Qed.

Lemma advise_lines (pl : ProfitLoss) (trend : string) (vol : Q) :
  exists first,
    In first [advice_take_profit; advice_hold; advice_risk_control; advice_loss] /\
    fst (advise pl trend vol)
    = first :: technical_advice trend ++ volatility_advice vol.
Proof.
  unfold advise, technical_advice, volatility_advice.
  destruct (Qgtb (profit_loss pl) 0);
    [destruct (Qgtb (profit_loss_rate pl) 20)
    |destruct (Qltb (profit_loss_rate pl) (-20))];
    (destruct (Py.contains "买入" trend);
       [|destruct (Py.contains "卖出" trend)]);
    destruct (Qgtb vol (1 # 2));
    (eexists; split; [|reflexivity]; simpl; auto 6).
Qed.

(** X21. For non-zero periods [analyze_trend] returns one of its five
    texts, and the advice built from it has the line "技术面显示买入信号"
    exactly for the golden cross and the line "技术面显示卖出信号" exactly
    for the death cross, whatever the profit/loss and the volatility. *)
Theorem technical_advice_follows_crossovers (prices : list Q)
    (short_period long_period : Z) (pl : ProfitLoss) (vol : Q) :
  short_period <> 0%Z -> long_period <> 0%Z ->
  exists s, analyze_trend prices short_period long_period = Ok s /\
    In s trend_texts /\
    (In advice_buy_signal (fst (advise pl s vol)) <-> s = golden_cross) /\
    (In advice_sell_signal (fst (advise pl s vol)) <-> s = death_cross).
Proof.
  intros Hs Hl.
  destruct (analyze_trend_texts prices short_period long_period Hs Hl)
    as (s & Es & Hin).
  exists s. split; [exact Es|]. split; [exact Hin|].
  destruct (advise_lines pl s vol) as (first & Hfirst & ->).
  unfold volatility_advice.
  assert (Hf1 : first <> advice_buy_signal /\ first <> advice_sell_signal).
  { simpl in Hfirst.
    destruct Hfirst as [<-|[<-|[<-|[<-|[]]]]]; split; discriminate. }
  destruct Hf1 as [Hfb Hfs].
  simpl in Hin.
  destruct Hin as [<-|[<-|[<-|[<-|[<-|[]]]]]];
    destruct (Qgtb vol (1 # 2)); simpl;
    (split; (split;
      [intros [E|H]; [congruence|];
       repeat (destruct H as [H|H]; [discriminate H|]); try contradiction;
       try reflexivity
      |intros E; try discriminate E; auto])).
Qed.

Lemma technical_advice_follows_crossovers_witness :
  exists s, analyze_trend late_jump 5 20 = Ok s /\
    (In advice_buy_signal (fst (advise zero_profit_loss s 0))
     <-> s = golden_cross).
Proof.
  destruct (technical_advice_follows_crossovers late_jump 5 20
              zero_profit_loss 0) as (s & Es & _ & Hbuy & _); [lia | lia |].
  exists s. split; assumption.
Defined.

Lemma advise_risk (pl : ProfitLoss) (trend : string) (vol : Q) :
  snd (advise pl trend vol)
  = if Qgtb vol (1 # 2) then risk_high
    else if Qgtb (profit_loss pl) 0 then risk_low
    else if Qltb (profit_loss_rate pl) (-20) then risk_high
    else risk_medium.
Proof.
  unfold advise.
  destruct (Qgtb (profit_loss pl) 0);
    [destruct (Qgtb (profit_loss_rate pl) 20)
    |destruct (Qltb (profit_loss_rate pl) (-20))];
    destruct (Qgtb vol (1 # 2)); reflexivity.
Qed.

Lemma advice_bundle_inv (sqrt : Q -> Q) (c : StockCalculator)
    (current_price : Q) (historical_prices : list Q) (a : Advice) :
  get_comprehensive_advice sqrt c current_price historical_prices
  = Ok (AdviceBundle a) ->
  exists trend rsi vol dd,
    analyze_trend historical_prices 5 20 = Ok trend /\
    calculate_volatility sqrt historical_prices = Ok vol /\
    calculate_max_drawdown historical_prices = Ok dd /\
    a = mkAdvice (get_position_summary c)
          (calculate_profit_loss c current_price)
          (mkTech trend rsi)
          (mkRisk vol dd
             (snd (advise (calculate_profit_loss c current_price) trend vol)))
          (fst (advise (calculate_profit_loss c current_price) trend vol)).
Proof.
  unfold get_comprehensive_advice.
  destruct historical_prices as [|h hs]; [discriminate|].
  destruct (analyze_trend (h :: hs) 5 20) as [t|]; simpl; [|discriminate].
  destruct (analyze_rsi_signal (h :: hs)) as [r|]; simpl; [|discriminate].
  destruct (calculate_volatility sqrt (h :: hs)) as [vol|]; simpl;
    [|discriminate].
  destruct (calculate_max_drawdown (h :: hs)) as [dd|]; simpl; [|discriminate].
  destruct (advise _ _ _) as [lines risk] eqn:Eadv. intros [= <-].
  exists t, r, vol, dd. rewrite Eadv. repeat split.
Qed.

(** X22. In every advice bundle [get_comprehensive_advice] returns, the
    risk level is "低" exactly when the profit is positive and the
    volatility is at most 0.5, "高" exactly when the volatility exceeds 0.5
    or the position is not in profit with a rate below -20, and "中" in
    the remaining case; the advice list has between one and three lines. *)
Theorem risk_level_rule (sqrt : Q -> Q) (c : StockCalculator)
    (current_price : Q) (historical_prices : list Q) (a : Advice) :
  get_comprehensive_advice sqrt c current_price historical_prices
  = Ok (AdviceBundle a) ->
  let pl := adv_profit_loss a in
  let vol := volatility (risk_analysis a) in
  let risk := risk_level (risk_analysis a) in
  pl = calculate_profit_loss c current_price /\
  (risk = risk_low <-> 0 < profit_loss pl /\ vol <= 1 # 2) /\
  (risk = risk_high <->
   1 # 2 < vol \/ (profit_loss pl <= 0 /\ profit_loss_rate pl < -20)) /\
  (risk = risk_medium <->
   vol <= 1 # 2 /\ profit_loss pl <= 0 /\ -20 <= profit_loss_rate pl) /\
  (1 <= length (advice a) <= 3)%nat.
Proof.
  intros Hret.
  destruct (advice_bundle_inv _ _ _ _ _ Hret) as (t & r & vol & dd & _ & _ & _ & ->).
  cbn [adv_profit_loss risk_analysis volatility risk_level advice].
  set (pl := calculate_profit_loss c current_price).
  split; [reflexivity|]. rewrite advise_risk.
  destruct (advise_lines pl t vol) as (first & _ & ->).
  assert (Hlen : (1 <= length (first :: technical_advice t ++ volatility_advice vol) <= 3)%nat).
  { unfold technical_advice, volatility_advice.
    destruct (Py.contains "买入" t); [|destruct (Py.contains "卖出" t)];
      destruct (Qgtb vol (1 # 2)); simpl; lia. }
  destruct (Qgtb vol (1 # 2)) eqn:Hv;
    [apply Qgtb_gt in Hv | apply Qgtb_le in Hv];
    (destruct (Qgtb (profit_loss pl) 0) eqn:Hp;
       [apply Qgtb_gt in Hp | apply Qgtb_le in Hp]);
    (destruct (Qltb (profit_loss_rate pl) (-20)) eqn:Hr;
       [apply Qltb_lt in Hr | apply Qltb_ge in Hr]);
    (split; [|split; [|split; [|exact Hlen]]]);
    (split; [intros E; try discriminate E; try (split; lra);
             try (right; split; lra); try (left; lra);
             try (repeat split; lra)
            |intros H; try reflexivity; exfalso;
             repeat match goal with
                    | H : _ /\ _ |- _ => destruct H
                    | H : _ \/ _ |- _ => destruct H
                    end; lra]).
Qed.

Lemma risk_level_rule_witness :
  exists a,
    get_comprehensive_advice sqrt_floor round_trip 20.50 [20; 20.5; 21]
    = Ok (AdviceBundle a) /\
    (risk_level (risk_analysis a) = risk_low <->
     0 < profit_loss (adv_profit_loss a) /\
     volatility (risk_analysis a) <= 1 # 2).
Proof.
  destruct (get_comprehensive_advice sqrt_floor round_trip 20.50 [20; 20.5; 21])
    as [[msg|a]|e] eqn:E; [vm_compute in E; discriminate | | vm_compute in E; discriminate].
  exists a. split; [reflexivity|].
  exact (proj1 (proj2 (risk_level_rule _ _ _ _ _ E))).
Defined.

(** ** Analyzer *)

(** X23. An analyzer with exactly two recorded prices, both non-zero,
    cannot be analysed: [analyze_stock] raises the [StatisticsError] of
    [calculate_volatility], whatever the dates of the two points. *)
Theorem analyze_stock_two_prices_raises (sqrt : Q -> Q) (c : StockCalculator)
    (d1 d2 : datetime) (p1 p2 : Q) (v1 v2 : Z) (current_price : Q) :
  ~ p1 == 0 -> ~ p2 == 0 ->
  analyze_stock sqrt
    (add_price_history (add_price_history (new_analyzer c) d1 p1 v1) d2 p2 v2)
    current_price
  = Raise StatisticsError.
Proof.
  intros H1 H2.
  assert (Htwo : forall a b : Q, ~ a == 0 ->
            get_comprehensive_advice sqrt c current_price [a; b]
            = Raise StatisticsError).
  { intros a b Ha. unfold get_comprehensive_advice.
    assert (Et : analyze_trend [a; b] 5 20 = Ok insufficient_data)
      by reflexivity.
    assert (Er : analyze_rsi_signal [a; b] = Ok insufficient_data)
      by reflexivity.
    rewrite Et. cbn [mbind result_bind]. rewrite Er. cbn [mbind result_bind].
    rewrite calculate_volatility_two by exact Ha. reflexivity. }
  unfold analyze_stock, get_price_list, add_price_history, new_analyzer.
  cbn [price_history calculator app sort_by insert_by pp_date].
  destruct (d1 <=? d2)%Z; cbn [map pp_price]; apply Htwo; assumption.
Qed.

Lemma analyze_stock_two_prices_raises_witness :
  analyze_stock sqrt_floor
    (add_price_history (add_price_history (new_analyzer round_trip) 2 21 0)
                       1 20 0) 20.50
  = Raise StatisticsError.
Proof.
  apply analyze_stock_two_prices_raises; intros H; discriminate H.
Defined.

Lemma record_from_perm (pts : list PricePoint) (a : StockAnalyzer) :
  let a' := fold_left
              (fun a pt => add_price_history a (pp_date pt) (pp_price pt)
                                             (pp_volume pt)) pts a in
  Permutation (price_history a ++ pts) (price_history a') /\
  calculator a' = calculator a.
Proof.
  revert a. induction pts as [|pt pts IH]; intros a; simpl.
  - rewrite app_nil_r. split; reflexivity.
  - destruct (IH (add_price_history a (pp_date pt) (pp_price pt) (pp_volume pt)))
      as [Hperm Hcalc].
    split; [|rewrite Hcalc; reflexivity].
    rewrite <- Hperm. unfold add_price_history. simpl.
    rewrite <- sort_by_perm, <- app_assoc. destruct pt. reflexivity.
Qed.

Lemma record_all_ascending (c : StockCalculator) (pts : list PricePoint) :
  ascending pp_date (price_history (record_all c pts)).
Proof.
  unfold record_all. destruct pts as [|pt pts _] using rev_ind.
  - constructor.
  - rewrite fold_left_app. exact (sort_by_ascending pp_date _).
Qed.

(** X24. The recorded price history is kept in ascending date order, and
    when the dates of the points are pairwise distinct the analyzer does
    not depend on the order in which they were recorded, so neither does
    the analysis. *)
Theorem price_history_order_is_irrelevant (sqrt : Q -> Q)
    (c : StockCalculator) (pts pts' : list PricePoint) (current_price : Q) :
  List.NoDup (map pp_date pts) ->
  Permutation pts pts' ->
  ascending pp_date (price_history (record_all c pts')) /\
  record_all c pts' = record_all c pts /\
  analyze_stock sqrt (record_all c pts') current_price
  = analyze_stock sqrt (record_all c pts) current_price.
Proof.
  intros Hnd Hperm. split; [apply record_all_ascending|].
  assert (E : record_all c pts' = record_all c pts).
  { destruct (record_from_perm pts (new_analyzer c)) as [P1 C1].
    destruct (record_from_perm pts' (new_analyzer c)) as [P2 C2].
    fold (record_all c pts) in P1, C1. fold (record_all c pts') in P2, C2.
    simpl in P1, P2, C1, C2.
    assert (Hh : price_history (record_all c pts')
                 = price_history (record_all c pts)).
    { apply (ascending_unique pp_date).
      - rewrite <- P1, <- P2. symmetry. exact Hperm.
      - eapply Permutation_NoDup; [|exact Hnd].
        apply Permutation_map. rewrite <- P2. exact Hperm.
      - apply record_all_ascending.
      - apply record_all_ascending. }
    destruct (record_all c pts') as [c2 h2], (record_all c pts) as [c1 h1].
    simpl in *. congruence. }
  split; [exact E|]. rewrite E. reflexivity.
Qed.

Lemma price_history_order_is_irrelevant_witness :
  get_price_list (record_all round_trip (rev three_points)) = [10; 11; 12] /\
  record_all round_trip (rev three_points) = record_all round_trip three_points.
Proof.
  split; [reflexivity|].
  apply (price_history_order_is_irrelevant sqrt_floor round_trip
           three_points (rev three_points) 20).
  - repeat constructor; simpl; intuition lia.
  - apply Permutation_rev.
Defined.

(** ** The trade entry of the web layer *)

Lemma dict_set_keys_present {V} (d : Dict.t V) (k : string) (v : V) :
  In k (Dict.keys d) -> Dict.keys (Dict.set d k v) = Dict.keys d.
Proof.
  induction d as [|[k' v'] d IH]; simpl; intros Hin; [contradiction|].
  destruct (String.eqb_spec k k') as [->|Hne]; simpl; [reflexivity|].
  f_equal. apply IH. destruct Hin as [E|Hin]; [congruence | exact Hin].
Qed.

Lemma add_stock_registers (p : StockPortfolio) (code : string) :
  In code (Dict.keys (stocks (fst (add_stock p code)))).
Proof.
  unfold add_stock.
  destruct (Dict.get (stocks p) code) as [c0|] eqn:E; simpl.
  - destruct (in_dec string_dec code (Dict.keys (stocks p))) as [H|H];
      [exact H|]. apply dict_get_None in H. congruence.
  - apply dict_get_None in E. rewrite (dict_set_fresh _ _ _ E).
    unfold Dict.keys. rewrite map_app. apply in_or_app. right. left.
    reflexivity.
Qed.

Lemma add_stock_then_get_stock_aux (p : StockPortfolio) (code : string) :
  get_stock (fst (add_stock p code)) code = Some (snd (add_stock p code)) /\
  (forall other, other <> code ->
     get_stock (fst (add_stock p code)) other = get_stock p other).
Proof.
  unfold add_stock, get_stock.
  destruct (Dict.get (stocks p) code) as [c0|] eqn:E; simpl.
  - split; [exact E | reflexivity].
  - split; [apply dict_get_set_same|].
    intros other Hne. apply dict_get_set_other. exact Hne.
Qed.

(** X25. The trade entry of the web layer registers the stock code in all
    cases, also when the action is neither "buy" nor "sell": the code then
    keeps its calculator, or gets an empty one, and no trade is recorded.
    With "buy" or "sell" the trade is entered in the ledger of that code.
    The calculators of the other codes are never affected. *)
Theorem api_add_trade_effect (p : StockPortfolio) (code action : string)
    (price : Q) (shares : Z) (commission : Q) (descr : string)
    (d : datetime) :
  let p' := api_add_trade p code action price shares commission descr d in
  let c0 := snd (add_stock p code) in
  get_stock p' code
  = Some (if String.eqb action "buy"
          then buy c0 d price shares commission descr
          else if String.eqb action "sell"
          then sell c0 d price shares commission descr
          else c0) /\
  Dict.keys (stocks p') = Dict.keys (stocks (fst (add_stock p code))) /\
  (forall other, other <> code -> get_stock p' other = get_stock p other).
Proof.
  intros p' c0.
  destruct (add_stock_then_get_stock_aux p code) as (Hget & Hother).
  subst p' c0. unfold api_add_trade.
  destruct (add_stock p code) as [p1 c1] eqn:Eadd. simpl in *.
  pose proof (add_stock_registers p code) as Hreg. rewrite Eadd in Hreg.
  simpl in Hreg. unfold get_stock in *.
  destruct (String.eqb action "buy"); [|destruct (String.eqb action "sell")];
    simpl.
  - split; [apply dict_get_set_same|].
    split; [apply dict_set_keys_present; exact Hreg|].
    intros other Hne. rewrite dict_get_set_other by exact Hne.
    apply Hother. exact Hne.
  - split; [apply dict_get_set_same|].
    split; [apply dict_set_keys_present; exact Hreg|].
    intros other Hne. rewrite dict_get_set_other by exact Hne.
    apply Hother. exact Hne.
  - split; [exact Hget|]. split; [reflexivity | exact Hother].
Qed.

Lemma api_add_trade_effect_witness :
  get_stock (api_add_trade two_stock_portfolio "C" "hold" 10 100 0 "" 1) "A"
  = get_stock two_stock_portfolio "A".
Proof.
  apply (api_add_trade_effect two_stock_portfolio "C" "hold" 10 100 0 "" 1).
  discriminate.
Defined.

(** ** Buy-only ledgers in binary64 arithmetic *)










